(** * ReGen Architect: the request orchestrator, the session state machine
      and the two views, embedded from the TypeScript sources.

    - [services/geminiService.ts]: [retryOperation], [getAI],
      [findLocalServices];
    - [App.tsx]: [startAnalysis], [handleTypeSelection], [resetApp] and the
      callbacks that feed them;
    - [components/AnalysisView.tsx]: the strategy buttons;
    - [components/PlanView.tsx]: [handleSearchForPhase];
    - [types.ts]: the enums and records.

    JavaScript numbers that the code only counts, compares or scales by a
    power of two (loop counters, HTTP status codes, delays, percent scores,
    phase indices) are integers of [Z]. *)

From Stdlib Require Import ZArith Lia List Bool String.
From stdpp Require Import gmap strings list.
Import ListNotations.

Local Open Scope string_scope.
Local Open Scope list_scope.
Local Open Scope Z_scope.

(** ** JavaScript values that can be thrown *)

Module Js.

(** What reading a property of an object yields, as far as [===] against a
    number literal can tell the cases apart. *)
Inductive Field : Type :=
| FUndefined
| FNumber (n : Z)
| FString (s : string).

(** An error object: [new Error(msg)] has no [status]; the errors of the
    HTTP client carry the response status. [err_id] stands for the identity
    of the object. *)
Record Error : Type := mkError {
  err_id : nat;
  err_message : string;
  err_status : Field
}.

(** The operand of [throw] and the reason of a rejected promise. *)
Inductive Thrown : Type :=
| Undefined
| Obj (e : Error).

(** [v === n] for a number literal [n]. *)
Definition strict_eq_num (v : Field) (n : Z) : bool :=
  match v with
  | FNumber m => m =? n
  | _ => false
  end.

(** [new Error(msg)] *)
Definition new_Error (msg : string) : Error :=
  {| err_id := 0; err_message := msg; err_status := FUndefined |}.

(** The [TypeError] of a property read on [undefined]. *)
Definition type_error (prop : string) : Error :=
  new_Error
    ("Cannot read properties of undefined (reading '" ++ prop ++ "')")%string.

End Js.

(** ** Promises of async functions, run to settlement *)

(** How a promise settles. *)
Inductive Outcome (A : Type) : Type :=
| Resolved (a : A)
| Rejected (reason : Js.Thrown).
Arguments Resolved {A} a.
Arguments Rejected {A} reason.

(** The body of an [async] function over a world [W]: run until its promise
    settles, it leaves an outcome and the world after it. *)
Definition Async (W A : Type) : Type := W -> Outcome A * W.

Module AsyncM.
Section Ops.
Context {W : Type}.

Definition ret {A} (a : A) : Async W A := fun w => (Resolved a, w).

Definition throw {A} (x : Js.Thrown) : Async W A := fun w => (Rejected x, w).

Definition bind {A B} (m : Async W A) (k : A -> Async W B) : Async W B :=
  fun w =>
    match m w with
    | (Resolved a, w') => k a w'
    | (Rejected x, w') => (Rejected x, w')
    end.

(** [try { m } catch (x) { h x }] *)
Definition try_catch {A} (m : Async W A) (h : Js.Thrown -> Async W A)
  : Async W A :=
  fun w =>
    match m w with
    | (Resolved a, w') => (Resolved a, w')
    | (Rejected x, w') => h x w'
    end.

Definition modify (f : W -> W) : Async W unit := fun w => (Resolved tt, f w).
End Ops.
End AsyncM.

Declare Scope async_scope.
Delimit Scope async_scope with async.
Notation "'do' x <- m ; k" := (AsyncM.bind m (fun x => k))
  (at level 10, x name, m at level 100, k at level 200) : async_scope.
Notation "'do_' m ; k" := (AsyncM.bind m (fun _ => k))
  (at level 10, m at level 100, k at level 200) : async_scope.

(** ** services/geminiService.ts: the retry wrapper *)

Module Retry.

(** What [retryOperation] itself does that can be observed from outside. *)
Inductive Event : Type :=
| EvInvoke                                         (* operation() *)
| EvWarn (attempt : Z) (status : Js.Field) (delay : Z)   (* console.warn *)
| EvSleep (delay : Z).                             (* setTimeout(resolve, delay) *)

(** The world of the wrapper: the world of the wrapped operation, which the
    operation alone changes, and the wrapper's own events (latest first). *)
Record Sched (W : Type) : Type := mkSched {
  world : W;
  events : list Event
}.
Arguments mkSched {W} world events.
Arguments world {W} s.
Arguments events {W} s.

Definition start {W} (w : W) : Sched W := mkSched w [].

(** The events in the order they happened. *)
Definition log {W} (s : Sched W) : list Event := rev (events s).

Section RetryOperation.
Context {W T : Type}.

Definition emit (e : Event) : Async (Sched W) unit :=
  AsyncM.modify (fun s => mkSched (world s) (e :: events s)).

(** [await operation()] *)
Definition invoke (operation : Async W T) : Async (Sched W) T :=
  fun s =>
    let '(r, w') := operation (world s) in
    (r, mkSched w' (EvInvoke :: events s)).

(** [error.status]: a [TypeError] when the caught value is [undefined]. *)
Definition get_status (error : Js.Thrown) : Async (Sched W) Js.Field :=
  match error with
  | Js.Obj e => AsyncM.ret (Js.err_status e)
  | Js.Undefined => AsyncM.throw (Js.Obj (Js.type_error "status"))
  end.

Definition shouldRetry (status : Js.Field) : bool :=
  Js.strict_eq_num status 429 || Js.strict_eq_num status 503.

Local Open Scope async_scope.

(** The [for] loop of [retryOperation] from counter [i] on, with
    [lastError] as assigned so far. [n] counts the iterations left,
    [maxRetries - i]; [retryOperation] starts it at [maxRetries], so the
    branch [O] under [i < maxRetries] is never taken. *)
Fixpoint retry_loop (operation : Async W T) (maxRetries initialDelay : Z)
    (n : nat) (i : Z) (lastError : Js.Thrown) : Async (Sched W) T :=
  if i <? maxRetries then
    match n with
    | O => AsyncM.throw lastError
    | S n' =>
        AsyncM.try_catch (invoke operation)
          (fun error =>
             do status <- get_status error;
             if shouldRetry status && (i <? maxRetries - 1) then
               let delay := initialDelay * 2 ^ i in
               do_ emit (EvWarn (i + 1) status delay);
               do_ emit (EvSleep delay);
               retry_loop operation maxRetries initialDelay n' (i + 1) error
             else AsyncM.throw error)
    end
  else AsyncM.throw lastError.

Definition retryOperation (operation : Async W T)
    (maxRetries initialDelay : Z) : Async (Sched W) T :=
  retry_loop operation maxRetries initialDelay (Z.to_nat maxRetries) 0
    Js.Undefined.

(** [retryOperation(operation)]: [maxRetries = 3], [initialDelay = 2000]. *)
Definition retryOperation_default (operation : Async W T)
  : Async (Sched W) T :=
  retryOperation operation 3 2000.
End RetryOperation.

(** *** Reading a log *)

Definition is_invoke (e : Event) : bool :=
  match e with EvInvoke => true | _ => false end.

Definition is_warn (e : Event) : bool :=
  match e with EvWarn _ _ _ => true | _ => false end.

(** How many times the operation was invoked. *)
Definition invocations (l : list Event) : Z :=
  Z.of_nat (length (List.filter is_invoke l)).

(** The delays slept, in order. *)
Fixpoint delays (l : list Event) : list Z :=
  match l with
  | [] => []
  | EvSleep d :: l' => d :: delays l'
  | _ :: l' => delays l'
  end.

(** Invocations and sleeps in order, console output left out. *)
Definition timeline (l : list Event) : list Event :=
  List.filter (fun e => negb (is_warn e)) l.

(** The delay the policy puts after failed attempt number [attempt]
    (counted from 1). *)
Definition backoff_delay (base attempt : Z) : Z := base * 2 ^ (attempt - 1).

(** [attempts] invocations with the policy's sleep between consecutive
    ones. *)
Definition backoff_timeline (base : Z) (attempts : nat) : list Event :=
  match attempts with
  | O => []
  | S k =>
      EvInvoke ::
      flat_map (fun a => [EvSleep (backoff_delay base (Z.of_nat a)); EvInvoke])
               (seq 1 k)
  end.

(** The world in which invocation number [k] (from 0) of [operation] starts,
    when the first starts in [w]. *)
Fixpoint world_before {W T} (operation : Async W T) (k : nat) (w : W) : W :=
  match k with
  | O => w
  | S k' => world_before operation k' (snd (operation w))
  end.

(** How invocation number [k] settles. *)
Definition attempt_outcome {W T} (operation : Async W T) (k : nat) (w : W)
  : Outcome T :=
  fst (operation (world_before operation k w)).

(** A transient failure: a rejection with an error object whose [status] is
    429 or 503. *)
Definition transient {T} (o : Outcome T) : Prop :=
  exists e, o = Rejected (Js.Obj e) /\ shouldRetry (Js.err_status e) = true.

(** The timeline the loop leaves when it starts at counter [i] with [n]
    iterations to go and every attempt fails transiently. *)
Definition timeline_from (base i : Z) (n : nat) : list Event :=
  match n with
  | O => []
  | S k =>
      EvInvoke ::
      flat_map
        (fun a => [EvSleep (backoff_delay base (i + Z.of_nat a)); EvInvoke])
        (seq 1 k)
  end.

(** The scenario of four attempts, as the specification words it. *)
Definition fourth_attempt_scenario : Prop :=
  forall (W T : Type) (operation : Async W T) (w : W) (v : T),
    transient (attempt_outcome operation 0 w) ->
    transient (attempt_outcome operation 1 w) ->
    transient (attempt_outcome operation 2 w) ->
    attempt_outcome operation 3 w = Resolved v ->
    let (out, s) := retryOperation_default operation (start w) in
    invocations (log s) = 4 /\ out = Resolved v.

End Retry.

(** ** types.ts *)

Module Types.

Inductive AppState : Type :=
| IDLE
| ANALYZING
| REVIEW_ANALYSIS
| GENERATING_VISION
| PLANNING
| COMPLETE.

(** A string enum; its values reach the code as the keys of the parsed
    [suitability] object, cast without a check. *)
Definition RestorationType : Type := string.
Definition POLLINATOR_HAVEN : RestorationType := "Pollinator Haven".
Definition FOOD_FOREST : RestorationType := "Urban Food Forest".
Definition RAIN_GARDEN : RestorationType := "Stormwater Rain Garden".
Definition NATIVE_MEADOW : RestorationType := "Native Wildflower Meadow".
Definition COMMUNITY_PARK : RestorationType := "Sustainable Community Park".

Inductive BudgetLevel : Type :=
| LOW
| MEDIUM
| HIGH.

Record SiteAnalysis : Type := mkSiteAnalysis {
  sunlightExposure : string;
  soilSealingEstimate : Z;
  biodiversityScore : Z;
  hardinessZoneEstimate : string;
  estimatedAreaSqM : string;
  observedFeatures : list string;
  ecologicalDeficits : list string;
  (* Object.entries(analysis.suitability) *)
  suitability : list (RestorationType * Z)
}.

Record PlanPhase : Type := mkPlanPhase {
  phaseName : string;
  durationWeeks : Z;
  tasks : list string;
  materialsNeeded : list string;
  estimatedCost : Z;
  technicalNotes : string;
  recommendedServiceCategory : string
}.

Record RestorationPlan : Type := mkRestorationPlan {
  title : string;
  summary : string;
  totalDurationWeeks : Z;
  totalEstimatedCost : Z;
  currencySymbol : string;
  phases : list PlanPhase;
  maintenanceSchedule : string;
  longTermImpact : string
}.

Record Coordinates : Type := mkCoordinates {
  latitude : Z;
  longitude : Z
}.

Record ServiceProvider : Type := mkServiceProvider {
  name : string;
  description : string;
  phoneNumber : string;
  address : string
}.

Record LocalSearchResult : Type := mkLocalSearchResult {
  providers : list ServiceProvider
}.

Record ProjectState : Type := mkProjectState {
  originalImage : option string;
  restoredImage : option string;
  analysis : option SiteAnalysis;
  selectedType : option RestorationType;
  budget : BudgetLevel;
  plan : option RestorationPlan;
  location : option Coordinates
}.

(** [!x] for [x : string | null]: [null] and the empty string are falsy. *)
Definition falsy_string (x : option string) : bool :=
  match x with
  | None => true
  | Some s => String.eqb s ""
  end.

(** [!x] for [x : object | null]. *)
Definition falsy_object {A} (x : option A) : bool :=
  match x with
  | None => true
  | Some _ => false
  end.

End Types.

(** ** services/geminiService.ts: the local-service lookup *)

Module GenAI.
Import Types.

(** The request [findLocalServices] sends; the prompt is kept as the values
    it is built from. *)
Record Request : Type := mkRequest {
  req_model : string;
  req_query : string;
  req_location : Coordinates;
  req_googleSearch : bool
}.

(** [response.text] *)
Record Response : Type := mkResponse {
  text : option string
}.

(** What the service code acts on: the environment variable, the remote
    model ([respond k] is how request number [k] settles), the requests sent
    so far and the console, both latest first. *)
Record Env : Type := mkEnv {
  API_KEY : option string;
  respond : nat -> Outcome Response;
  requests : list Request;
  console_errors : list (string * Js.Thrown)
}.

Definition emptyResult : LocalSearchResult := {| providers := [] |}.

Definition api_key_missing : Js.Error :=
  Js.new_Error "API Key is missing. Please check your environment variables.".

(** [getAI()]: the client, here the key it was built with. *)
Definition getAI : Async Env string :=
  fun env =>
    match API_KEY env with
    | Some apiKey =>
        if String.eqb apiKey ""
        then (Rejected (Js.Obj api_key_missing), env)
        else (Resolved apiKey, env)
    | None => (Rejected (Js.Obj api_key_missing), env)
    end.

(** [await ai.models.generateContent(req)] *)
Definition generateContent (req : Request) : Async Env Response :=
  fun env =>
    (respond env (length (requests env)),
     mkEnv (API_KEY env) (respond env) (req :: requests env)
           (console_errors env)).

Definition console_error (label : string) (x : Js.Thrown) : Async Env unit :=
  AsyncM.modify (fun env =>
    mkEnv (API_KEY env) (respond env) (requests env)
          ((label, x) :: console_errors env)).

Section FindLocalServices.
(** [JSON.parse(s) as LocalSearchResult]: the built-in parser, which
    throws a [SyntaxError] on malformed input. *)
Variable JSON_parse : string -> Outcome LocalSearchResult.

Local Open Scope async_scope.

(** The [try] block of the operation. *)
Definition findLocalServices_try (query : string) (location : Coordinates)
  : Async Env LocalSearchResult :=
  do ai <- getAI;
  do response <- generateContent
    {| req_model := "gemini-3-flash-preview";
       req_query := query;
       req_location := location;
       req_googleSearch := true |};
  if falsy_string (text response)
  then AsyncM.throw (Js.Obj (Js.new_Error "No services found"))
  else
    match text response with
    | Some t => fun env => (JSON_parse t, env)
    | None => AsyncM.throw (Js.Obj (Js.new_Error "No services found"))
    end.

(** The operation handed to [retryOperation]: the [try] block and its
    [catch], which logs and returns an empty result. *)
Definition findLocalServices_operation (query : string)
    (location : Coordinates) : Async Env LocalSearchResult :=
  AsyncM.try_catch (findLocalServices_try query location)
    (fun error =>
       do_ console_error "Local search failed:" error;
       AsyncM.ret emptyResult).

Definition findLocalServices (query : string) (location : Coordinates)
  : Async (Retry.Sched Env) LocalSearchResult :=
  Retry.retryOperation_default (findLocalServices_operation query location).

(** The same request under the wrapper with the error thrown on, as
    [analyzeSiteImage] and [createExecutionPlan] do in their [catch]. *)
Definition findLocalServices_rethrowing (query : string)
    (location : Coordinates) : Async (Retry.Sched Env) LocalSearchResult :=
  Retry.retryOperation_default
    (AsyncM.try_catch (findLocalServices_try query location)
       (fun error =>
          do_ console_error "Local search failed:" error;
          AsyncM.throw error)).

(** The ways the lookup can fail inside its [try] block, on the
    environment it starts in. *)
Inductive LookupFailure (env : Env) : Prop :=
| MissingApiKey :
    falsy_string (API_KEY env) = true -> LookupFailure env
| RequestError x :
    falsy_string (API_KEY env) = false ->
    respond env (length (requests env)) = Rejected x ->
    LookupFailure env
| EmptyResponse r :
    falsy_string (API_KEY env) = false ->
    respond env (length (requests env)) = Resolved r ->
    falsy_string (text r) = true ->
    LookupFailure env
| MalformedJson r t x :
    falsy_string (API_KEY env) = false ->
    respond env (length (requests env)) = Resolved r ->
    text r = Some t ->
    falsy_string (text r) = false ->
    JSON_parse t = Rejected x ->
    LookupFailure env.
End FindLocalServices.

End GenAI.

(** ** components/AnalysisView.tsx: the strategy buttons *)

Module AnalysisView.
Import Types.

Record Props : Type := mkProps {
  analysis : SiteAnalysis;
  isGenerating : bool
}.

(** A call of the [onSelectType] prop. *)
Record SelectCall : Type := mkSelectCall {
  sel_type : RestorationType;
  sel_budget : BudgetLevel
}.

(** A rendered strategy button: its [key], its [disabled] attribute and the
    calls its [onClick] handler makes when it runs. *)
Record Button : Type := mkButton {
  btn_key : string;
  btn_score : Z;
  btn_disabled : bool;
  btn_onClick : list SelectCall
}.

(** [const isViable = item.score > 30] *)
Definition isViable (score : Z) : bool := score >? 30.

Definition render_button (props : Props) (selectedBudget : BudgetLevel)
    (item : RestorationType * Z) : Button :=
  let '(name, score) := item in
  {| btn_key := name;
     btn_score := score;
     btn_disabled := isGenerating props || negb (isViable score);
     (* () => isViable && onSelectType(item.name, selectedBudget) *)
     btn_onClick :=
       if isViable score then [mkSelectCall name selectedBudget] else [] |}.

(** [suitabilityData.map(item => <button .../>)] *)
Definition render_buttons (props : Props) (selectedBudget : BudgetLevel)
  : list Button :=
  map (render_button props selectedBudget) (suitability (analysis props)).

(** A click of the user: a disabled button dispatches nothing. *)
Definition click (b : Button) : list SelectCall :=
  if btn_disabled b then [] else btn_onClick b.

End AnalysisView.

(** ** components/PlanView.tsx: the per-phase lookup *)

Module PlanView.
Import Types.

(** The component: its two [useState] records keyed by phase index, and
    what its handler acts on, namely the service environment, the alerts
    shown and the calls of [findLocalServices] made. *)
Record View : Type := mkView {
  phaseResults : gmap Z LocalSearchResult;
  loadingPhases : gmap Z bool;
  net : GenAI.Env;
  alerts : list string;
  lookups : list (string * Coordinates)
}.

Definition setLoadingPhases (f : gmap Z bool -> gmap Z bool) (v : View) : View :=
  mkView (phaseResults v) (f (loadingPhases v)) (net v) (alerts v) (lookups v).

Definition setPhaseResults
    (f : gmap Z LocalSearchResult -> gmap Z LocalSearchResult) (v : View)
  : View :=
  mkView (f (phaseResults v)) (loadingPhases v) (net v) (alerts v) (lookups v).

Definition alert (msg : string) (v : View) : View :=
  mkView (phaseResults v) (loadingPhases v) (net v) (msg :: alerts v)
         (lookups v).

(** [console.error(e)] *)
Definition console_error (e : Js.Thrown) (v : View) : View :=
  mkView (phaseResults v) (loadingPhases v)
         (snd (GenAI.console_error "" e (net v))) (alerts v) (lookups v).

Section Handler.
Variable JSON_parse : string -> Outcome LocalSearchResult.

(** [await findLocalServices(category, location)], run until it settles. *)
Definition call_findLocalServices (category : string) (location : Coordinates)
    (v : View) : Outcome LocalSearchResult * View :=
  let '(r, s) :=
    GenAI.findLocalServices JSON_parse category location
      (Retry.start (net v)) in
  (r, mkView (phaseResults v) (loadingPhases v) (Retry.world s) (alerts v)
             ((category, location) :: lookups v)).

(** [handleSearchForPhase(index, category)] with the [location] prop, run
    until its promise settles. *)
Definition handleSearchForPhase (location : option Coordinates)
    (index : Z) (category : string) (v : View) : View :=
  match location with
  | None => alert "Location is required to find local help." v
  | Some loc =>
      let v1 := setLoadingPhases (fun prev => <[index := true]> prev) v in
      let '(r, v2) := call_findLocalServices category loc v1 in
      let v3 :=
        match r with
        | Resolved result =>
            setPhaseResults (fun prev => <[index := result]> prev) v2
        | Rejected e =>
            alert "Failed to find local services. Please try again later."
              (console_error e v2)
        end in
      (* finally *)
      setLoadingPhases (fun prev => <[index := false]> prev) v3
  end.
End Handler.

End PlanView.

(** ** App.tsx: the session controller *)

Module App.
Import Types.

(** The [useState] cells of [App] that its handlers write. *)
Record State : Type := mkState {
  appState : AppState;
  project : ProjectState;
  isLocating : bool;
  loadingDemo : bool
}.

Definition initialProject : ProjectState :=
  {| originalImage := None;
     restoredImage := None;
     analysis := None;
     selectedType := None;
     budget := MEDIUM;
     plan := None;
     location := None |}.

Definition initial : State :=
  {| appState := IDLE;
     project := initialProject;
     isLocating := false;
     loadingDemo := false |}.

Definition setAppState (a : AppState) (st : State) : State :=
  mkState a (project st) (isLocating st) (loadingDemo st).

Definition setProject (f : ProjectState -> ProjectState) (st : State) : State :=
  mkState (appState st) (f (project st)) (isLocating st) (loadingDemo st).

Definition setIsLocating (b : bool) (st : State) : State :=
  mkState (appState st) (project st) b (loadingDemo st).

Definition setLoadingDemo (b : bool) (st : State) : State :=
  mkState (appState st) (project st) (isLocating st) b.

(** The object spreads [{ ...prev, field }] of the handlers. *)
Definition with_originalImage (base64Data : string) (prev : ProjectState)
  : ProjectState :=
  mkProjectState (Some base64Data) (restoredImage prev) (analysis prev)
    (selectedType prev) (budget prev) (plan prev) (location prev).

Definition with_analysis (a : SiteAnalysis) (prev : ProjectState)
  : ProjectState :=
  mkProjectState (originalImage prev) (restoredImage prev) (Some a)
    (selectedType prev) (budget prev) (plan prev) (location prev).

Definition with_selection (type : RestorationType) (b : BudgetLevel)
    (prev : ProjectState) : ProjectState :=
  mkProjectState (originalImage prev) (restoredImage prev) (analysis prev)
    (Some type) b (plan prev) (location prev).

Definition with_generated (img : string) (p : RestorationPlan)
    (prev : ProjectState) : ProjectState :=
  mkProjectState (originalImage prev) (Some img) (analysis prev)
    (selectedType prev) (budget prev) (Some p) (location prev).

Definition with_location (c : Coordinates) (prev : ProjectState)
  : ProjectState :=
  mkProjectState (originalImage prev) (restoredImage prev) (analysis prev)
    (selectedType prev) (budget prev) (plan prev) (Some c).

(** [Promise.all([imagePromise, planPromise])]: the pair when both resolve;
    otherwise the reason of the promise that rejects first, the image
    promise when [image_first] and both reject. *)
Definition promise_all {A B} (image_first : bool)
    (r1 : Outcome A) (r2 : Outcome B) : Outcome (A * B) :=
  match r1, r2 with
  | Resolved a, Resolved b => Resolved (a, b)
  | Rejected x, Resolved _ => Rejected x
  | Resolved _, Rejected y => Rejected y
  | Rejected x, Rejected y => Rejected (if image_first then x else y)
  end.

(** *** The handlers, cut at their [await] *)

(** Each async handler is its part up to the [await] and its part from the
    settlement of the awaited promise on; a part returns the state and the
    alerts it shows. *)

(** [startAnalysis], up to [await analyzeSiteImage(...)]. *)
Definition startAnalysis_begin (st : State) : State :=
  setAppState ANALYZING st.

(** [startAnalysis], from the settlement on. *)
Definition startAnalysis_settle (r : Outcome SiteAnalysis) (st : State)
  : State * list string :=
  match r with
  | Resolved a =>
      (setAppState REVIEW_ANALYSIS (setProject (with_analysis a) st), [])
  | Rejected error =>
      (setAppState IDLE st, ["Failed to analyze image. Please try again."])
  end.

(** [reader.onloadend] of [handleFileUpload] and of [handleDemoLoad]. *)
Definition onloadend (base64Data : string) (demo : bool) (st : State) : State :=
  let st1 := setProject (with_originalImage base64Data) st in
  let st2 := startAnalysis_begin st1 in
  if demo then setLoadingDemo false st2 else st2.

(** [handleTypeSelection], up to [await Promise.all(...)]; the flag tells
    whether the two requests were issued. *)
Definition handleTypeSelection_begin (type : RestorationType)
    (b : BudgetLevel) (st : State) : State * bool :=
  if falsy_string (originalImage (project st))
     || falsy_object (analysis (project st))
  then (st, false)
  else (setAppState GENERATING_VISION (setProject (with_selection type b) st),
        true).

(** [handleTypeSelection], from the settlement of [Promise.all] on. *)
Definition handleTypeSelection_settle
    (r : Outcome (string * RestorationPlan)) (st : State)
  : State * list string :=
  match r with
  | Resolved (restoredImage, plan) =>
      (setAppState COMPLETE
         (setProject (with_generated restoredImage plan) st), [])
  | Rejected error =>
      (setAppState REVIEW_ANALYSIS st, ["Generation failed. Please try again."])
  end.

Definition resetApp (st : State) : State :=
  setProject (fun _ => initialProject) (setAppState IDLE st).

(** *** The session as a transition system *)

(** A promise a handler is waiting on. *)
Inductive Pending : Type :=
| PFetch                  (* fetch(DEMO_IMAGE_URL) and response.blob() *)
| PRead (demo : bool)     (* reader.readAsDataURL *)
| PLocate                 (* getCurrentPosition *)
| PAnalysis               (* analyzeSiteImage *)
| PGeneration.            (* Promise.all of image and plan *)

Definition Pending_eqb (p q : Pending) : bool :=
  match p, q with
  | PFetch, PFetch | PLocate, PLocate | PAnalysis, PAnalysis
  | PGeneration, PGeneration => true
  | PRead a, PRead b => Bool.eqb a b
  | _, _ => false
  end.

(** [error.code] of a failed [getCurrentPosition]. *)
Inductive GeoError : Type :=
| PERMISSION_DENIED
| POSITION_UNAVAILABLE
| TIMEOUT
| OTHER_CODE.

Definition location_error_message (e : GeoError) : string :=
  match e with
  | PERMISSION_DENIED =>
      "Location permission denied. Please allow location access in your browser settings to use local features."
  | POSITION_UNAVAILABLE => "Location information is unavailable."
  | TIMEOUT => "The request to get user location timed out."
  | OTHER_CODE => "Unable to retrieve location."
  end.

(** What can happen to the session: what the user does with the controls
    the page shows, and the settlement of a pending promise. *)
Inductive Label : Type :=
| LChooseFile
| LDemoClick
| LFetchDone (r : Outcome string)
| LReadDone (base64Data : string) (demo : bool)
| LLocateClick (supported : bool)
| LLocateDone (r : Coordinates + GeoError)
| LAnalysisDone (r : Outcome SiteAnalysis)
| LSelectType (type : RestorationType) (b : BudgetLevel)
| LGenerationDone (image_first : bool) (r1 : Outcome string)
    (r2 : Outcome RestorationPlan)
| LReset.

Record Sys : Type := mkSys {
  ui : State;
  inflight : list Pending;
  alerts : list string
}.

Definition boot : Sys := mkSys initial [] [].

(** Take one pending promise of kind [p] out, if there is one. *)
Fixpoint settle_one (p : Pending) (l : list Pending) : option (list Pending) :=
  match l with
  | [] => None
  | q :: l' =>
      if Pending_eqb p q then Some l'
      else match settle_one p l' with
           | Some l'' => Some (q :: l'')
           | None => None
           end
  end.

Definition waiting (p : Pending) (s : Sys) : bool :=
  existsb (Pending_eqb p) (inflight s).

(** The landing page, with the upload, demo and location controls, is
    rendered when [appState === AppState.IDLE]. *)
Definition shows_landing (st : State) : bool :=
  match appState st with IDLE => true | _ => false end.

(** [AnalysisView] is rendered when [appState === REVIEW_ANALYSIS] and
    [project.analysis] is set; it offers the types of its enabled buttons. *)
Definition offers (st : State) (type : RestorationType) (b : BudgetLevel)
  : bool :=
  match appState st, analysis (project st) with
  | REVIEW_ANALYSIS, Some a =>
      existsb
        (fun btn =>
           existsb (fun c => String.eqb (AnalysisView.sel_type c) type)
                   (AnalysisView.click btn))
        (AnalysisView.render_buttons (AnalysisView.mkProps a false) b)
  | _, _ => false
  end.

(** One event; [None] when the page does not offer it or no such promise
    is pending. *)
Definition step (s : Sys) (l : Label) : option Sys :=
  match l with
  | LChooseFile =>
      if shows_landing (ui s)
      then Some (mkSys (ui s) (PRead false :: inflight s) (alerts s))
      else None
  | LDemoClick =>
      if shows_landing (ui s) && negb (loadingDemo (ui s))
      then Some (mkSys (setLoadingDemo true (ui s)) (PFetch :: inflight s)
                       (alerts s))
      else None
  | LFetchDone r =>
      match settle_one PFetch (inflight s) with
      | Some rest =>
          match r with
          | Resolved _ => Some (mkSys (ui s) (PRead true :: rest) (alerts s))
          | Rejected _ =>
              Some (mkSys (setLoadingDemo false (ui s)) rest
                      ("Could not load demo image. Please upload your own."
                       :: alerts s))
          end
      | None => None
      end
  | LReadDone base64Data demo =>
      match settle_one (PRead demo) (inflight s) with
      | Some rest =>
          Some (mkSys (onloadend base64Data demo (ui s)) (PAnalysis :: rest)
                      (alerts s))
      | None => None
      end
  | LLocateClick supported =>
      if shows_landing (ui s)
         && negb (negb (falsy_object (location (project (ui s))))
                  || isLocating (ui s))
      then
        if supported
        then Some (mkSys (setIsLocating true (ui s)) (PLocate :: inflight s)
                         (alerts s))
        else Some (mkSys (ui s) (inflight s)
                     ("Geolocation is not supported by your browser"
                      :: alerts s))
      else None
  | LLocateDone r =>
      match settle_one PLocate (inflight s) with
      | Some rest =>
          match r with
          | inl c =>
              Some (mkSys (setIsLocating false
                             (setProject (with_location c) (ui s)))
                          rest (alerts s))
          | inr e =>
              Some (mkSys (setIsLocating false (ui s)) rest
                          (location_error_message e :: alerts s))
          end
      | None => None
      end
  | LAnalysisDone r =>
      match settle_one PAnalysis (inflight s) with
      | Some rest =>
          let '(st, shown) := startAnalysis_settle r (ui s) in
          Some (mkSys st rest (shown ++ alerts s))
      | None => None
      end
  | LSelectType type b =>
      if offers (ui s) type b
      then
        let '(st, issued) := handleTypeSelection_begin type b (ui s) in
        Some (mkSys st
                (if issued then PGeneration :: inflight s else inflight s)
                (alerts s))
      else None
  | LGenerationDone image_first r1 r2 =>
      match settle_one PGeneration (inflight s) with
      | Some rest =>
          let '(st, shown) :=
            handleTypeSelection_settle (promise_all image_first r1 r2) (ui s) in
          Some (mkSys st rest (shown ++ alerts s))
      | None => None
      end
  | LReset => Some (mkSys (resetApp (ui s)) (inflight s) (alerts s))
  end.

(** A run of events, each of them allowed by [allowed]. *)
Fixpoint run_with (allowed : Sys -> Label -> bool) (s : Sys)
    (trace : list Label) : option Sys :=
  match trace with
  | [] => Some s
  | l :: trace' =>
      if allowed s l
      then match step s l with
           | Some s' => run_with allowed s' trace'
           | None => None
           end
      else None
  end.

Definition run : Sys -> list Label -> option Sys :=
  run_with (fun _ _ => true).

(** The runs in which [resetApp] is never invoked while a generation is in
    flight. *)
Definition no_reset_in_flight (s : Sys) (l : Label) : bool :=
  match l with
  | LReset => negb (waiting PGeneration s)
  | _ => true
  end.

(** A restoration plan is held only with a site analysis. *)
Definition plan_has_analysis (st : State) : Prop :=
  plan (project st) <> None -> analysis (project st) <> None.

(** What holds along the runs without a reset in flight: a pending
    generation and a held plan both come with an analysis. *)
Definition generation_has_analysis (s : Sys) : Prop :=
  (waiting PGeneration s = true -> analysis (project (ui s)) <> None) /\
  plan_has_analysis (ui s).

End App.

(** ** Sample operations, environments and sessions *)

Module Samples.
Import Types App.

(** An operation that is always rate limited; its world counts the
    invocations made. *)
Definition always_429 : Async nat string :=
  fun k => (Rejected (Js.Obj (Js.mkError k "Too Many Requests" (Js.FNumber 429))),
            S k).

(** Rate limited three times, then a success. *)
Definition fourth_time_lucky : Async nat string :=
  fun k =>
    if (k <? 3)%nat
    then (Rejected (Js.Obj (Js.mkError k "Service Unavailable" (Js.FNumber 503))),
          S k)
    else (Resolved "fourth", S k).

(** Unavailable twice, then a success. *)
Definition third_time_lucky : Async nat string :=
  fun k =>
    if (k <? 2)%nat
    then (Rejected (Js.Obj (Js.mkError k "Service Unavailable" (Js.FNumber 503))),
          S k)
    else (Resolved "third", S k).

(** Unavailable once, then refused for good. *)
Definition permission_denied : Js.Error :=
  Js.mkError 9 "Permission denied" (Js.FNumber 403).

Definition busy_then_denied : Async nat string :=
  fun k =>
    if (k <? 1)%nat
    then (Rejected (Js.Obj (Js.mkError k "Service Unavailable" (Js.FNumber 503))),
          S k)
    else (Rejected (Js.Obj permission_denied), S k).

(** [Promise.reject()] every time. *)
Definition rejects_undefined : Async nat string :=
  fun k => (Rejected Js.Undefined, S k).

(** A missing API key: an [Error] without [status]. *)
Definition always_fatal : Async nat string :=
  fun k => (Rejected (Js.Obj (Js.new_Error "API Key is missing.")), S k).

Definition env_no_key : GenAI.Env :=
  GenAI.mkEnv None (fun _ => Resolved (GenAI.mkResponse None)) [] [].

Definition too_many_requests : Js.Error :=
  Js.mkError 7 "Too Many Requests" (Js.FNumber 429).

Definition env_rate_limited : GenAI.Env :=
  GenAI.mkEnv (Some "key") (fun _ => Rejected (Js.Obj too_many_requests)) [] [].

Definition parse_nothing : string -> Outcome LocalSearchResult :=
  fun _ => Rejected (Js.Obj (Js.new_Error "Unexpected end of JSON input")).

Definition berlin : Coordinates := mkCoordinates 52 13.

Definition fresh_view (env : GenAI.Env) : PlanView.View :=
  PlanView.mkView ∅ ∅ env [] [].

Definition paved_yard : SiteAnalysis :=
  {| sunlightExposure := "Full Sun";
     soilSealingEstimate := 95;
     biodiversityScore := 1;
     hardinessZoneEstimate := "7b";
     estimatedAreaSqM := "10-20";
     observedFeatures := ["pavement"; "fence"];
     ecologicalDeficits := ["no permeable surface"];
     suitability :=
       [(POLLINATOR_HAVEN, 85); (FOOD_FOREST, 15); (RAIN_GARDEN, 30);
        (NATIVE_MEADOW, 31); (COMMUNITY_PARK, 10)] |}.

Definition three_phase_plan : RestorationPlan :=
  {| title := "Pocket pollinator yard";
     summary := "Depave, amend, plant.";
     totalDurationWeeks := 6;
     totalEstimatedCost := 1200;
     currencySymbol := "$";
     phases :=
       [mkPlanPhase "Depave" 2 ["lift slabs"] ["pry bar"] 300 "keep the kerb"
          "Waste Removal"];
     maintenanceSchedule := "monthly weeding";
     longTermImpact := "more bees" |}.

Definition quota_error : Js.Error :=
  Js.mkError 3 "Too Many Requests" (Js.FNumber 429).

(** A session in review: an image was uploaded and analysed. *)
Definition in_review : State :=
  {| appState := REVIEW_ANALYSIS;
     project :=
       with_analysis paved_yard (with_originalImage "aW1hZ2U=" initialProject);
     isLocating := false;
     loadingDemo := false |}.

(** Upload, analysis, selection, then a reset while the generation is
    pending, which afterwards resolves. *)
Definition reset_during_generation : list Label :=
  [LChooseFile;
   LReadDone "aW1hZ2U=" false;
   LAnalysisDone (Resolved paved_yard);
   LSelectType POLLINATOR_HAVEN MEDIUM;
   LReset;
   LGenerationDone true (Resolved "cmVzdG9yZWQ=") (Resolved three_phase_plan)].

(** The same session without the reset. *)
Definition undisturbed_generation : list Label :=
  [LChooseFile;
   LReadDone "aW1hZ2U=" false;
   LAnalysisDone (Resolved paved_yard);
   LSelectType POLLINATOR_HAVEN MEDIUM;
   LGenerationDone true (Resolved "cmVzdG9yZWQ=") (Resolved three_phase_plan)].

End Samples.

(** ** services/geminiService.ts: analysis, vision image and plan *)

Module Gemini.
Import Types.

(** The response schemas, by name. *)
Inductive SchemaRef : Type :=
| analysisSchema
| planSchema.

(** The text part of a request, kept as the values interpolated into the
    template. *)
Inductive Prompt : Type :=
| AnalysisPrompt (locationContext : option Coordinates)
| VisionPrompt (type : RestorationType) (estimatedAreaSqM : string)
    (budgetPrompt : string) (hardinessZoneEstimate : string)
    (specifics : string)
| PlanPrompt (type : RestorationType) (budget : BudgetLevel)
    (estimatedAreaSqM : string) (hardinessZoneEstimate : string)
    (locationContext : option Coordinates)
    (observedFeatures : list string) (ecologicalDeficits : list string).

Inductive RequestPart : Type :=
| ReqText (prompt : Prompt)
| ReqInlineData (mimeType : string) (data : string).

(** [config]: [responseMimeType] is ["application/json"] whenever a schema
    is given. *)
Record Request : Type := mkRequest {
  req_model : string;
  req_parts : list RequestPart;
  req_responseSchema : option SchemaRef;
  req_thinkingBudget : option Z
}.

Record InlineData : Type := mkInlineData {
  mimeType : string;
  data : option string
}.

Record Part : Type := mkPart {
  part_text : option string;
  inlineData : option InlineData
}.

Record Content : Type := mkContent {
  parts : option (list Part)
}.

Record Candidate : Type := mkCandidate {
  content : option Content
}.

Record Response : Type := mkResponse {
  text : option string;
  candidates : option (list Candidate)
}.

Record Env : Type := mkEnv {
  API_KEY : option string;
  respond : nat -> Outcome Response;
  requests : list Request;
  console_errors : list (string * Js.Thrown)
}.

(** [getAI()] *)
Definition getAI : Async Env string :=
  fun env =>
    match API_KEY env with
    | Some apiKey =>
        if String.eqb apiKey ""
        then (Rejected (Js.Obj GenAI.api_key_missing), env)
        else (Resolved apiKey, env)
    | None => (Rejected (Js.Obj GenAI.api_key_missing), env)
    end.

(** [await ai.models.generateContent(req)] *)
Definition generateContent (req : Request) : Async Env Response :=
  fun env =>
    (respond env (length (requests env)),
     mkEnv (API_KEY env) (respond env) (req :: requests env)
           (console_errors env)).

Definition console_error (label : string) (x : Js.Thrown) : Async Env unit :=
  AsyncM.modify (fun env =>
    mkEnv (API_KEY env) (respond env) (requests env)
          ((label, x) :: console_errors env)).

Definition budgetPrompt (budget : BudgetLevel) : string :=
  match budget with
  | LOW =>
      "Use cost-effective materials, gravel paths, young plants, and DIY aesthetics."
  | HIGH =>
      "Use premium mature trees, stone hardscaping, and professional finish."
  | MEDIUM => "Standard landscape quality."
  end.

Definition specifics (type : RestorationType) : string :=
  if String.eqb type POLLINATOR_HAVEN
  then "wildflower drifts, bee blocks, potted lavender"
  else if String.eqb type FOOD_FOREST
  then "apple trees, berry bushes, raised timber beds"
  else if String.eqb type RAIN_GARDEN
  then "river stones, rushes, sunken bioswale"
  else if String.eqb type NATIVE_MEADOW
  then "tall feathery grasses, local wildflowers"
  else "modern benches, shade sail, permeable paving".

(** [response.candidates?.[0]?.content?.parts || []] *)
Definition candidate_parts (response : Response) : list Part :=
  match candidates response with
  | Some (c :: _) =>
      match content c with
      | Some ct =>
          match parts ct with
          | Some ps => ps
          | None => []
          end
      | None => []
      end
  | _ => []
  end.

(** The [for] loop over the parts: the data of the first part whose
    [inlineData] and [inlineData.data] are both truthy. *)
Fixpoint first_inline_data (ps : list Part) : option string :=
  match ps with
  | [] => None
  | part :: ps' =>
      match inlineData part with
      | Some d =>
          if falsy_string (data d) then first_inline_data ps'
          else
            match data d with
            | Some s => Some s
            | None => first_inline_data ps'
            end
      | None => first_inline_data ps'
      end
  end.

Section Calls.
(** [JSON.parse(s) as SiteAnalysis] and [JSON.parse(s) as RestorationPlan]. *)
Variable JSON_parse_analysis : string -> Outcome SiteAnalysis.
Variable JSON_parse_plan : string -> Outcome RestorationPlan.

Local Open Scope async_scope.

Definition analysis_request (base64Image : string)
    (location : option Coordinates) : Request :=
  {| req_model := "gemini-3-flash-preview";
     req_parts :=
       [ReqInlineData "image/jpeg" base64Image;
        ReqText (AnalysisPrompt location)];
     req_responseSchema := Some analysisSchema;
     req_thinkingBudget := None |}.

(** The operation [analyzeSiteImage] hands to [retryOperation]. *)
Definition analyzeSiteImage_operation (base64Image : string)
    (location : option Coordinates) : Async Env SiteAnalysis :=
  AsyncM.try_catch
    (do ai <- getAI;
     do response <- generateContent (analysis_request base64Image location);
     if falsy_string (text response)
     then AsyncM.throw (Js.Obj (Js.new_Error "No analysis generated"))
     else
       match text response with
       | Some t => fun env => (JSON_parse_analysis t, env)
       | None => AsyncM.throw (Js.Obj (Js.new_Error "No analysis generated"))
       end)
    (fun error =>
       do_ console_error "Analysis failed:" error;
       AsyncM.throw error).

Definition analyzeSiteImage (base64Image : string)
    (location : option Coordinates) : Async (Retry.Sched Env) SiteAnalysis :=
  Retry.retryOperation_default (analyzeSiteImage_operation base64Image location).

Definition vision_request (originalBase64 : string) (type : RestorationType)
    (analysis : SiteAnalysis) (budget : BudgetLevel) : Request :=
  {| req_model := "gemini-2.5-flash-image";
     req_parts :=
       [ReqText (VisionPrompt type (estimatedAreaSqM analysis)
                   (budgetPrompt budget) (hardinessZoneEstimate analysis)
                   (specifics type));
        ReqInlineData "image/jpeg" originalBase64];
     req_responseSchema := None;
     req_thinkingBudget := None |}.

(** The operation of [generateVisionImage]: [getAI()] runs before its
    [try]. *)
Definition generateVisionImage_operation (originalBase64 : string)
    (type : RestorationType) (analysis : SiteAnalysis) (budget : BudgetLevel)
  : Async Env string :=
  do ai <- getAI;
  AsyncM.try_catch
    (do response <-
       generateContent (vision_request originalBase64 type analysis budget);
     match first_inline_data (candidate_parts response) with
     | Some d => AsyncM.ret d
     | None =>
         AsyncM.throw (Js.Obj (Js.new_Error "No image generated by Flash model"))
     end)
    (fun error =>
       do_ console_error "Vision generation failed:" error;
       AsyncM.throw error).

Definition generateVisionImage (originalBase64 : string)
    (type : RestorationType) (analysis : SiteAnalysis) (budget : BudgetLevel)
  : Async (Retry.Sched Env) string :=
  Retry.retryOperation_default
    (generateVisionImage_operation originalBase64 type analysis budget).

Definition plan_request (analysis : SiteAnalysis) (type : RestorationType)
    (budget : BudgetLevel) (location : option Coordinates) : Request :=
  {| req_model := "gemini-3-flash-preview";
     req_parts :=
       [ReqText (PlanPrompt type budget (estimatedAreaSqM analysis)
                   (hardinessZoneEstimate analysis) location
                   (observedFeatures analysis) (ecologicalDeficits analysis))];
     req_responseSchema := Some planSchema;
     req_thinkingBudget := Some 4096 |}.

(** The operation of [createExecutionPlan]. *)
Definition createExecutionPlan_operation (analysis : SiteAnalysis)
    (type : RestorationType) (budget : BudgetLevel)
    (location : option Coordinates) : Async Env RestorationPlan :=
  AsyncM.try_catch
    (do ai <- getAI;
     do response <- generateContent (plan_request analysis type budget location);
     if falsy_string (text response)
     then AsyncM.throw (Js.Obj (Js.new_Error "No plan generated"))
     else
       match text response with
       | Some t => fun env => (JSON_parse_plan t, env)
       | None => AsyncM.throw (Js.Obj (Js.new_Error "No plan generated"))
       end)
    (fun error =>
       do_ console_error "Plan generation failed:" error;
       AsyncM.throw error).

Definition createExecutionPlan (analysis : SiteAnalysis)
    (type : RestorationType) (budget : BudgetLevel)
    (location : option Coordinates)
  : Async (Retry.Sched Env) RestorationPlan :=
  Retry.retryOperation_default
    (createExecutionPlan_operation analysis type budget location).

(** What [analyzeSiteImage]'s operation makes of the settlement of its
    request. *)
Definition analysis_of_reply (reply : Outcome Response) : Outcome SiteAnalysis :=
  match reply with
  | Rejected x => Rejected x
  | Resolved response =>
      match text response with
      | Some t =>
          if String.eqb t ""
          then Rejected (Js.Obj (Js.new_Error "No analysis generated"))
          else JSON_parse_analysis t
      | None => Rejected (Js.Obj (Js.new_Error "No analysis generated"))
      end
  end.

(** Likewise for [createExecutionPlan]. *)
Definition plan_of_reply (reply : Outcome Response) : Outcome RestorationPlan :=
  match reply with
  | Rejected x => Rejected x
  | Resolved response =>
      match text response with
      | Some t =>
          if String.eqb t ""
          then Rejected (Js.Obj (Js.new_Error "No plan generated"))
          else JSON_parse_plan t
      | None => Rejected (Js.Obj (Js.new_Error "No plan generated"))
      end
  end.
End Calls.

(** Likewise for [generateVisionImage]. *)
Definition image_of_reply (reply : Outcome Response) : Outcome string :=
  match reply with
  | Rejected x => Rejected x
  | Resolved response =>
      match first_inline_data (candidate_parts response) with
      | Some d => Resolved d
      | None =>
          Rejected (Js.Obj (Js.new_Error "No image generated by Flash model"))
      end
  end.

(** A part the loop of [generateVisionImage] passes over. *)
Definition no_inline_data (part : Part) : Prop :=
  match inlineData part with
  | Some d => data d = None \/ data d = Some ""
  | None => True
  end.

End Gemini.

(** ** What the three operations have in common *)

Module GeminiAux.
Import Types Gemini.

(** An operation that, given a key, sends the one request [req] and settles
    as [read] makes of the reply, a rejected request rejecting it alike;
    without a key it rejects before any request. It leaves the key and the
    remote model alone. *)
Definition one_request {A} (operation : Async Env A) (req : Request)
    (read : Outcome Response -> Outcome A) : Prop :=
  (forall x, read (Rejected x) = Rejected x) /\
  forall env,
    let (r, env') := operation env in
    API_KEY env' = API_KEY env /\
    respond env' = respond env /\
    if falsy_string (API_KEY env)
    then r = Rejected (Js.Obj GenAI.api_key_missing) /\
         requests env' = requests env
    else r = read (respond env (length (requests env))) /\
         requests env' = req :: requests env.

(** Sample replies and environments. *)
Definition unavailable : Js.Error :=
  Js.mkError 5 "Service Unavailable" (Js.FNumber 503).

Definition text_reply (t : string) : Response := mkResponse (Some t) None.

Definition image_reply (ps : list Part) : Response :=
  mkResponse None (Some [mkCandidate (Some (mkContent (Some ps)))]).

Definition caption : Part := mkPart (Some "Here is your render") None.

Definition picture (d : string) : Part :=
  mkPart None (Some (mkInlineData "image/png" (Some d))).

(** Unavailable twice, then a reply with [reply]. *)
Definition env_recovering (reply : Response) : Env :=
  mkEnv (Some "key")
    (fun k => if (k <? 2)%nat then Rejected (Js.Obj unavailable)
              else Resolved reply)
    [] [].

Definition env_unavailable : Env :=
  mkEnv (Some "key") (fun _ => Rejected (Js.Obj unavailable)) [] [].

Definition env_replying (reply : Response) : Env :=
  mkEnv (Some "key") (fun _ => Resolved reply) [] [].

Definition env_keyless : Env :=
  mkEnv (Some "") (fun _ => Resolved (text_reply "{}")) [] [].

Definition parse_analysis_ok : string -> Outcome SiteAnalysis :=
  fun _ => Resolved Samples.paved_yard.

Definition parse_plan_ok : string -> Outcome RestorationPlan :=
  fun _ => Resolved Samples.three_phase_plan.

End GeminiAux.

(** ** A lookup that succeeds *)

Module LookupSamples.
Import Types.

Definition one_nursery : LocalSearchResult :=
  {| providers :=
       [mkServiceProvider "Wildwuchs" "Native perennials" "+49 30 1234567"
          "Gartenweg 1"] |}.

Definition parse_nursery : string -> Outcome LocalSearchResult :=
  fun _ => Resolved one_nursery.

Definition nursery_env : GenAI.Env :=
  GenAI.mkEnv (Some "key")
    (fun _ => Resolved (GenAI.mkResponse (Some "{providers}"))) [] [].

End LookupSamples.

(** ** The wrapper's log, measured *)

Module RetryAux.
Import Retry.

(** The time slept in all, in milliseconds. *)
Definition total_delay (l : list Event) : Z := fold_right Z.add 0 (delays l).

(** What the [catch] of the loop leaves of a settlement: reading [status]
    off a thrown [undefined] replaces it by a [TypeError]. *)
Definition as_caught {T} (o : Outcome T) : Outcome T :=
  match o with
  | Rejected Js.Undefined => Rejected (Js.Obj (Js.type_error "status"))
  | _ => o
  end.

End RetryAux.

(** ** components/AnalysisView.tsx: chart data and badges *)

Module AnalysisViewRender.
Import Types AnalysisView.

(** [s.includes(sub)] *)
Definition includes (s sub : string) : bool :=
  match String.index 0 sub s with
  | Some _ => true
  | None => false
  end.

Record RadarPoint : Type := mkRadarPoint {
  subject : string;
  A : Z;
  fullMark : Z
}.

Definition biodiversityData (analysis : SiteAnalysis) : list RadarPoint :=
  [ {| subject := "Biodiversity";
       A := biodiversityScore analysis * 10; fullMark := 100 |};
    {| subject := "Permeability";
       A := 100 - soilSealingEstimate analysis; fullMark := 100 |};
    {| subject := "Sunlight";
       A := if includes (sunlightExposure analysis) "Full" then 90 else 50;
       fullMark := 100 |} ].

Inductive BadgeColour : Type :=
| Emerald
| Yellow
| Red.

Inductive BadgeText : Type :=
| PercentMatch (score : Z)
| NotSuitable.

Inductive Footer : Type :=
| ProgressBar (widthPercent : Z)
| Unsuitable.

(** The score badge and what is shown under it. *)
Record Face : Type := mkFace {
  badge_colour : BadgeColour;
  badge_text : BadgeText;
  footer : Footer
}.

Definition render_face (item : RestorationType * Z) : Face :=
  let '(name, score) := item in
  {| badge_colour :=
       if score >? 80 then Emerald
       else if score >? 50 then Yellow
       else Red;
     badge_text := if isViable score then PercentMatch score else NotSuitable;
     footer := if isViable score then ProgressBar score else Unsuitable |}.

End AnalysisViewRender.

(** ** components/PlanView.tsx: the local-assistance panel of a phase *)

Module PlanViewRender.
Import Types PlanView.







End PlanViewRender.

(** ** App.tsx: which part of the page is rendered *)

Module AppRender.
Import Types App.

(** The spinner: [ANALYZING] or [GENERATING_VISION]. *)
Definition shows_loader (st : State) : bool :=
  match appState st with
  | ANALYZING | GENERATING_VISION => true
  | _ => false
  end.

(** The two-column interface: [REVIEW_ANALYSIS] or [COMPLETE], and
    [project.analysis]. *)
Definition shows_workspace (st : State) : bool :=
  match appState st with
  | REVIEW_ANALYSIS | COMPLETE => negb (falsy_object (analysis (project st)))
  | _ => false
  end.

(** [<AnalysisView/>] inside it. *)
Definition shows_review (st : State) : bool :=
  shows_workspace st &&
  match appState st with REVIEW_ANALYSIS => true | _ => false end.

(** [<PlanView/>] inside it. *)
Definition shows_plan (st : State) : bool :=
  shows_workspace st &&
  match appState st with
  | COMPLETE => negb (falsy_object (plan (project st)))
  | _ => false
  end.

(** How many promises of kind [p] are pending. *)
Definition in_flight (p : Pending) (s : Sys) : nat :=
  length (List.filter (Pending_eqb p) (inflight s)).

Definition flag (b : bool) : nat := if b then 1%nat else 0%nat.

(** What every run keeps. *)
Definition session_invariant (s : Sys) : Prop :=
  appState (ui s) <> PLANNING /\
  (appState (ui s) = COMPLETE ->
     plan (project (ui s)) <> None /\ restoredImage (project (ui s)) <> None) /\
  in_flight PLocate s = flag (isLocating (ui s)) /\
  (in_flight PFetch s + in_flight (PRead true) s)%nat
    = flag (loadingDemo (ui s)).

(** What the runs without a reset in flight keep besides. *)
Definition view_invariant (s : Sys) : Prop :=
  generation_has_analysis s /\
  (waiting PGeneration s = true -> selectedType (project (ui s)) <> None) /\
  appState (ui s) <> PLANNING /\
  (appState (ui s) = REVIEW_ANALYSIS \/ appState (ui s) = COMPLETE ->
     analysis (project (ui s)) <> None) /\
  (appState (ui s) = COMPLETE ->
     plan (project (ui s)) <> None /\ selectedType (project (ui s)) <> None).

(** The session after [Samples.undisturbed_generation]. *)
Definition completed : Sys :=
  mkSys
    (mkState COMPLETE
       (with_generated "cmVzdG9yZWQ=" Samples.three_phase_plan
          (with_selection POLLINATOR_HAVEN MEDIUM (project Samples.in_review)))
       false false)
    [] [].

(** The session after [Samples.reset_during_generation]. *)
Definition completed_after_reset : Sys :=
  mkSys
    (mkState COMPLETE
       (with_generated "cmVzdG9yZWQ=" Samples.three_phase_plan initialProject)
       false false)
    [] [].



(** A project with every field of a finished session. *)
Definition finished_project (base64Data : string) (a : SiteAnalysis)
    (type : RestorationType) (b : BudgetLevel) (img : string)
    (p : RestorationPlan) : ProjectState :=
  {| originalImage := Some base64Data;
     restoredImage := Some img;
     analysis := Some a;
     selectedType := Some type;
     budget := b;
     plan := Some p;
     location := None |}.

(** Upload, analysis, selection and generation, all succeeding. *)
Definition happy_path (base64Data : string) (a : SiteAnalysis)
    (type : RestorationType) (b : BudgetLevel) (image_first : bool)
    (img : string) (p : RestorationPlan) : list Label :=
  [LChooseFile;
   LReadDone base64Data false;
   LAnalysisDone (Resolved a);
   LSelectType type b;
   LGenerationDone image_first (Resolved img) (Resolved p)].

End AppRender.

(** * Properties *)

(** ** The retry wrapper *)

Module RetryFacts.
Import Retry Samples.

Lemma invocations_timeline l : invocations (timeline l) = invocations l.
Proof.
  unfold invocations, timeline.
  induction l as [|e l IH]; [reflexivity|].
  destruct e; cbn in *; lia.
Qed.

Lemma delays_timeline l : delays (timeline l) = delays l.
Proof.
  unfold timeline.
  induction l as [|e l IH]; [reflexivity|].
  destruct e; cbn in *; congruence.
Qed.

Lemma flat_map_seq_shift {A} (f : nat -> list A) a k :
  flat_map f (seq (S a) k) = flat_map (fun x => f (S x)) (seq a k).
Proof.
  revert a. induction k as [|k IH]; intros a; [reflexivity|].
  cbn [seq flat_map]. now rewrite IH.
Qed.

Lemma timeline_from_0 base n : timeline_from base 0 n = backoff_timeline base n.
Proof. reflexivity. Qed.

Lemma timeline_from_step base i k :
  timeline_from base i (S (S k)) =
  EvInvoke :: EvSleep (base * 2 ^ i) :: timeline_from base (i + 1) (S k).
Proof.
  unfold timeline_from. cbn [seq flat_map app]. unfold backoff_delay at 1.
  replace (i + Z.of_nat 1 - 1) with i by lia.
  do 3 f_equal.
  rewrite flat_map_seq_shift. apply flat_map_ext. intros a.
  do 3 f_equal. lia.
Qed.

Lemma invocations_timeline_from base i n :
  invocations (timeline_from base i n) = Z.of_nat n.
Proof.
  destruct n as [|k]; [reflexivity|].
  unfold timeline_from, invocations. cbn [List.filter is_invoke length].
  generalize 1%nat. induction k as [|k IH]; intros a; [reflexivity|].
  cbn [seq flat_map app List.filter is_invoke length].
  specialize (IH (S a)). lia.
Qed.

Lemma delays_timeline_from base i n :
  delays (timeline_from base i n) =
  map (fun a => backoff_delay base (i + Z.of_nat a)) (seq 1 (n - 1)).
Proof.
  destruct n as [|k]; [reflexivity|].
  unfold timeline_from. cbn [delays]. replace (S k - 1)%nat with k by lia.
  generalize 1%nat. induction k as [|k IH]; intros a; [reflexivity|].
  cbn [seq flat_map app delays map]. now rewrite IH.
Qed.

Section Loop.
Context {W T : Type}.
Variable operation : Async W T.
Variables maxRetries initialDelay : Z.

Lemma attempt_outcome_S k w :
  attempt_outcome operation (S k) w =
  attempt_outcome operation k (snd (operation w)).
Proof. reflexivity. Qed.

(** Every attempt the loop still has failing transiently, it makes them
    all and throws what the last one threw. *)
Lemma retry_loop_transient n : forall i lastError (s : Sched W),
  (1 <= n)%nat ->
  Z.of_nat n = maxRetries - i ->
  (forall k, (k < n)%nat -> transient (attempt_outcome operation k (world s))) ->
  exists evs,
    retry_loop operation maxRetries initialDelay n i lastError s =
      (attempt_outcome operation (n - 1) (world s),
       mkSched (world_before operation n (world s)) (rev evs ++ events s)) /\
    timeline evs = timeline_from initialDelay i n.
Proof.
  induction n as [|n IH]; intros i lastError s Hn Hi Hall; [lia|].
  cbn [retry_loop].
  assert (Hlt : (i <? maxRetries) = true) by (apply Z.ltb_lt; lia).
  rewrite Hlt.
  destruct (Hall 0%nat ltac:(lia)) as (e & He & Hretry).
  unfold attempt_outcome in He. cbn [world_before] in He.
  unfold AsyncM.try_catch, invoke.
  destruct (operation (world s)) as [r w'] eqn:Hop. cbn [fst] in He. subst r.
  cbn [get_status]. unfold AsyncM.bind at 1. unfold AsyncM.ret at 1.
  rewrite Hretry. cbn [andb].
  destruct n as [|n].
  - assert (Hlast : (i <? maxRetries - 1) = false) by (apply Z.ltb_ge; lia).
    rewrite Hlast. exists [EvInvoke]. split; [|reflexivity].
    unfold AsyncM.throw, attempt_outcome.
    cbn [Nat.sub world_before rev app]. rewrite Hop. reflexivity.
  - assert (Hmore : (i <? maxRetries - 1) = true) by (apply Z.ltb_lt; lia).
    rewrite Hmore. cbv zeta.
    unfold AsyncM.bind, emit, AsyncM.modify. cbn [world events].
    edestruct (IH (i + 1) (Js.Obj e)
                 (mkSched w' (EvSleep (initialDelay * 2 ^ i)
                    :: EvWarn (i + 1) (Js.err_status e) (initialDelay * 2 ^ i)
                    :: EvInvoke :: events s)))
      as (evs & Hrun & Htl); [lia|lia| |].
    + intros k Hk. cbn [world].
      specialize (Hall (S k) ltac:(lia)).
      rewrite attempt_outcome_S, Hop in Hall. exact Hall.
    + rewrite Hrun. cbn [world events].
      exists (EvInvoke :: EvWarn (i + 1) (Js.err_status e) (initialDelay * 2 ^ i)
                :: EvSleep (initialDelay * 2 ^ i) :: evs).
      split.
      * f_equal.
        -- replace (S (S n) - 1)%nat with (S n) by lia.
           replace (S n - 1)%nat with n by lia.
           rewrite attempt_outcome_S, Hop. reflexivity.
        -- cbn [world_before]. rewrite Hop. cbn [snd]. f_equal.
           cbn [rev]. rewrite <- !app_assoc. reflexivity.
      * rewrite timeline_from_step. unfold timeline in *.
        cbn [List.filter is_warn negb]. now rewrite Htl.
Qed.
End Loop.

Section Fuel.
Context {W T : Type}.
Variable operation : Async W T.
Variables maxRetries initialDelay : Z.

(** The count of iterations left does not limit the loop: any count that
    covers [maxRetries - i] gives the same run. *)
Lemma retry_loop_enough n : forall m i lastError (s : Sched W),
  maxRetries - i <= Z.of_nat n ->
  maxRetries - i <= Z.of_nat m ->
  retry_loop operation maxRetries initialDelay n i lastError s =
  retry_loop operation maxRetries initialDelay m i lastError s.
Proof.
  induction n as [|n IH]; intros m i lastError s Hn Hm.
  - destruct m; cbn [retry_loop];
      replace (i <? maxRetries) with false
        by (symmetry; apply Z.ltb_ge; lia); reflexivity.
  - destruct m as [|m]; cbn [retry_loop].
    + replace (i <? maxRetries) with false
        by (symmetry; apply Z.ltb_ge; lia). reflexivity.
    + destruct (i <? maxRetries); [|reflexivity].
      unfold AsyncM.try_catch.
      destruct (invoke operation s) as [[v|error] s']; [reflexivity|].
      unfold AsyncM.bind.
      destruct (get_status error s') as [[status|x] s'']; [|reflexivity].
      destruct (shouldRetry status && (i <? maxRetries - 1)); [|reflexivity].
      cbv zeta.
      destruct (emit _ s'') as [[[]|x] s3]; [|reflexivity].
      destruct (emit _ s3) as [[[]|x] s4]; [|reflexivity].
      apply IH; lia.
Qed.

(** With [maxRetries] at most 0 the loop body never runs: nothing is
    invoked and the initial [lastError], [undefined], is thrown. *)
Lemma retryOperation_no_attempts w :
  maxRetries <= 0 ->
  retryOperation operation maxRetries initialDelay (start w) =
    (Rejected Js.Undefined, start w).
Proof.
  intros Hmax. unfold retryOperation.
  destruct (Z.to_nat maxRetries) eqn:E; cbn [retry_loop];
    replace (0 <? maxRetries) with false
      by (symmetry; apply Z.ltb_ge; lia); reflexivity.
Qed.
End Fuel.

Section FirstAttempt.
Context {W T : Type}.
Variable operation : Async W T.
Variables maxRetries initialDelay : Z.

(** A first attempt that resolves ends the loop. *)
Lemma retryOperation_first_resolved w v w' :
  1 <= maxRetries ->
  operation w = (Resolved v, w') ->
  retryOperation operation maxRetries initialDelay (start w) =
    (Resolved v, mkSched w' [EvInvoke]).
Proof.
  intros Hmax Hop. unfold retryOperation.
  destruct (Z.to_nat maxRetries) as [|n] eqn:Hn; [lia|].
  cbn [retry_loop].
  replace (0 <? maxRetries) with true by (symmetry; apply Z.ltb_lt; lia).
  unfold AsyncM.try_catch, invoke, start. cbn [world events].
  now rewrite Hop.
Qed.

(** A first attempt that throws an object the policy does not retry ends
    the loop with that object. *)
Lemma retryOperation_first_fatal w e w' :
  1 <= maxRetries ->
  operation w = (Rejected (Js.Obj e), w') ->
  shouldRetry (Js.err_status e) = false ->
  retryOperation operation maxRetries initialDelay (start w) =
    (Rejected (Js.Obj e), mkSched w' [EvInvoke]).
Proof.
  intros Hmax Hop Hfatal. unfold retryOperation.
  destruct (Z.to_nat maxRetries) as [|n] eqn:Hn; [lia|].
  cbn [retry_loop].
  replace (0 <? maxRetries) with true by (symmetry; apply Z.ltb_lt; lia).
  unfold AsyncM.try_catch, invoke, start. cbn [world events].
  rewrite Hop. cbn [get_status]. unfold AsyncM.bind, AsyncM.ret.
  rewrite Hfatal. reflexivity.
Qed.
End FirstAttempt.

(** C1. When each of the [maxRetries] attempts fails with a transient error
    (status 429 or 503), [retryOperation] invokes the operation exactly
    [maxRetries] times, sleeps [initialDelay * 2^(attempt-1)] milliseconds
    after each failed attempt but the last, and rejects with what the last
    attempt threw. *)
Theorem retryOperation_transient_exhausts {W T : Type}
    (operation : Async W T) (maxRetries initialDelay : Z) (w : W) :
  1 <= maxRetries ->
  (forall k, (k < Z.to_nat maxRetries)%nat ->
             transient (attempt_outcome operation k w)) ->
  let (out, s) := retryOperation operation maxRetries initialDelay (start w) in
  invocations (log s) = maxRetries /\
  timeline (log s) = backoff_timeline initialDelay (Z.to_nat maxRetries) /\
  delays (log s) =
    map (fun attempt => backoff_delay initialDelay (Z.of_nat attempt))
        (seq 1 (Z.to_nat maxRetries - 1)) /\
  out = attempt_outcome operation (Z.to_nat maxRetries - 1) w /\
  transient out.
Proof.
  intros Hmax Hall. unfold retryOperation.
  destruct (retry_loop_transient operation maxRetries initialDelay
              (Z.to_nat maxRetries) 0 Js.Undefined (start w))
    as (evs & Hrun & Htl); [lia|lia|exact Hall|].
  rewrite Hrun. unfold log. cbn [events world start].
  rewrite app_nil_r, rev_involutive.
  rewrite <- (invocations_timeline evs), <- (delays_timeline evs), Htl.
  rewrite invocations_timeline_from, delays_timeline_from.
  repeat split; try reflexivity; [lia|].
  apply Hall. lia.
Qed.

Lemma retryOperation_transient_exhausts_witness :
  1 <= 3 /\
  (forall k, (k < Z.to_nat 3)%nat -> transient (attempt_outcome always_429 k 0%nat)) /\
  let (out, s) := retryOperation always_429 3 2000 (start 0%nat) in
  invocations (log s) = 3 /\
  timeline (log s) = backoff_timeline 2000 (Z.to_nat 3) /\
  delays (log s) =
    map (fun attempt => backoff_delay 2000 (Z.of_nat attempt))
        (seq 1 (Z.to_nat 3 - 1)) /\
  out = attempt_outcome always_429 (Z.to_nat 3 - 1) 0%nat /\
  transient out.
Proof.
  assert (H : forall k, (k < Z.to_nat 3)%nat ->
                        transient (attempt_outcome always_429 k 0%nat)).
  { intros k _. eexists. split; reflexivity. }
  split; [lia|]. split; [exact H|].
  apply (retryOperation_transient_exhausts always_429 3 2000 0%nat); [lia|exact H].
Defined.

(** The default policy on an operation that is always rate limited: three
    invocations, 2000 ms and 4000 ms between them. *)
Example retryOperation_default_always_429 :
  let (out, s) := retryOperation_default always_429 (start 0%nat) in
  log s = [EvInvoke; EvWarn 1 (Js.FNumber 429) 2000; EvSleep 2000;
           EvInvoke; EvWarn 2 (Js.FNumber 429) 4000; EvSleep 4000;
           EvInvoke] /\
  out = Rejected (Js.Obj (Js.mkError 2 "Too Many Requests" (Js.FNumber 429))).
Proof. vm_compute. split; reflexivity. Qed.

(** A success within the three attempts is returned. *)
Example retryOperation_default_third_time_lucky :
  let (out, s) := retryOperation_default third_time_lucky (start 0%nat) in
  timeline (log s) = [EvInvoke; EvSleep 2000; EvInvoke; EvSleep 4000; EvInvoke] /\
  out = Resolved "third".
Proof. vm_compute. split; reflexivity. Qed.

(** C2, as stated, fails: with the default [maxRetries = 3] the third
    transient failure is thrown at once ([i < maxRetries - 1] is false), so
    the operation is invoked three times and the success a fourth
    invocation would bring is never asked for. *)
Lemma retryOperation_no_fourth_attempt :
  transient (attempt_outcome fourth_time_lucky 0 0%nat) /\
  transient (attempt_outcome fourth_time_lucky 1 0%nat) /\
  transient (attempt_outcome fourth_time_lucky 2 0%nat) /\
  attempt_outcome fourth_time_lucky 3 0%nat = Resolved "fourth" /\
  (let (out, s) := retryOperation_default fourth_time_lucky (start 0%nat) in
   invocations (log s) = 3 /\
   out = Rejected (Js.Obj (Js.mkError 2 "Service Unavailable" (Js.FNumber 503)))) /\
  ~ (let (out, s) := retryOperation_default fourth_time_lucky (start 0%nat) in
     invocations (log s) = 4 /\ out = Resolved "fourth").
Proof.
  repeat split; try (eexists; split; reflexivity).
  vm_compute. intros [H _]. discriminate H.
Qed.

(** Hence the scenario does not hold of [retryOperation]. *)
Lemma fourth_attempt_scenario_fails : ~ fourth_attempt_scenario.
Proof.
  intros H.
  specialize (H nat string fourth_time_lucky 0%nat "fourth").
  assert (Ht : forall k, (k < 3)%nat ->
                         transient (attempt_outcome fourth_time_lucky k 0%nat)).
  { intros k Hk. destruct k as [|[|[|k]]]; [eexists; split; reflexivity..|lia]. }
  specialize (H (Ht 0%nat ltac:(lia)) (Ht 1%nat ltac:(lia)) (Ht 2%nat ltac:(lia))
                eq_refl).
  vm_compute in H. destruct H as [H _]. discriminate H.
Qed.

(** C2, amended. When the first three attempts fail with a transient error,
    [retryOperation] with its default parameters invokes the operation
    exactly three times, sleeping 2000 ms and 4000 ms between them, and
    rejects with what the third attempt threw; the world is left as the
    third attempt left it, whatever a fourth would have done. *)
Theorem retryOperation_default_three_transient {W T : Type}
    (operation : Async W T) (w : W) :
  transient (attempt_outcome operation 0 w) ->
  transient (attempt_outcome operation 1 w) ->
  transient (attempt_outcome operation 2 w) ->
  let (out, s) := retryOperation_default operation (start w) in
  invocations (log s) = 3 /\
  timeline (log s) = [EvInvoke; EvSleep 2000; EvInvoke; EvSleep 4000; EvInvoke] /\
  out = attempt_outcome operation 2 w /\
  world s = world_before operation 3 w.
Proof.
  intros H0 H1 H2. unfold retryOperation_default, retryOperation.
  destruct (retry_loop_transient operation 3 2000 3 0 Js.Undefined (start w))
    as (evs & Hrun & Htl); [lia|lia| |].
  { intros k Hk. cbn [world start].
    destruct k as [|[|[|k]]]; [assumption..|lia]. }
  change (Z.to_nat 3) with 3%nat. rewrite Hrun.
  unfold log. cbn [events world start].
  rewrite app_nil_r, rev_involutive, <- (invocations_timeline evs), Htl.
  repeat split; reflexivity.
Qed.

Lemma retryOperation_default_three_transient_witness :
  transient (attempt_outcome fourth_time_lucky 0 0%nat) /\
  transient (attempt_outcome fourth_time_lucky 1 0%nat) /\
  transient (attempt_outcome fourth_time_lucky 2 0%nat) /\
  let (out, s) := retryOperation_default fourth_time_lucky (start 0%nat) in
  invocations (log s) = 3 /\
  timeline (log s) = [EvInvoke; EvSleep 2000; EvInvoke; EvSleep 4000; EvInvoke] /\
  out = attempt_outcome fourth_time_lucky 2 0%nat /\
  world s = world_before fourth_time_lucky 3 0%nat.
Proof.
  assert (H : forall k, (k < 3)%nat ->
                        transient (attempt_outcome fourth_time_lucky k 0%nat)).
  { intros k Hk. destruct k as [|[|[|k]]]; [eexists; split; reflexivity..|lia]. }
  split; [apply H; lia|]. split; [apply H; lia|]. split; [apply H; lia|].
  apply (retryOperation_default_three_transient fourth_time_lucky 0%nat);
    apply H; lia.
Defined.

(** C3. When the first attempt throws an error object whose [status] is
    neither 429 nor 503, [retryOperation] has invoked the operation exactly
    once, has slept for no delay, and rejects with that very object. *)
Theorem retryOperation_non_transient_once {W T : Type}
    (operation : Async W T) (maxRetries initialDelay : Z) (w w' : W)
    (e : Js.Error) :
  1 <= maxRetries ->
  operation w = (Rejected (Js.Obj e), w') ->
  Js.strict_eq_num (Js.err_status e) 429 = false ->
  Js.strict_eq_num (Js.err_status e) 503 = false ->
  let (out, s) := retryOperation operation maxRetries initialDelay (start w) in
  out = Rejected (Js.Obj e) /\
  log s = [EvInvoke] /\
  invocations (log s) = 1 /\
  delays (log s) = [] /\
  world s = w'.
Proof.
  intros Hmax Hop H429 H503.
  rewrite (retryOperation_first_fatal operation maxRetries initialDelay w e w');
    [repeat split; reflexivity|assumption..|].
  unfold shouldRetry. now rewrite H429, H503.
Qed.

Lemma retryOperation_non_transient_once_witness :
  1 <= 3 /\
  always_fatal 0%nat =
    (Rejected (Js.Obj (Js.new_Error "API Key is missing.")), 1%nat) /\
  Js.strict_eq_num (Js.err_status (Js.new_Error "API Key is missing.")) 429 = false /\
  Js.strict_eq_num (Js.err_status (Js.new_Error "API Key is missing.")) 503 = false /\
  let (out, s) := retryOperation always_fatal 3 2000 (start 0%nat) in
  out = Rejected (Js.Obj (Js.new_Error "API Key is missing.")) /\
  log s = [EvInvoke] /\
  invocations (log s) = 1 /\
  delays (log s) = [] /\
  world s = 1%nat.
Proof.
  split; [lia|]. split; [reflexivity|]. split; [reflexivity|].
  split; [reflexivity|].
  apply (retryOperation_non_transient_once always_fatal 3 2000 0%nat 1%nat
           (Js.new_Error "API Key is missing."));
    [lia|reflexivity..].
Defined.

End RetryFacts.

(** ** The lookup operation *)

Module GenAIFacts.
Import Types GenAI.

Section Lookup.
Variable JSON_parse : string -> Outcome LocalSearchResult.
Variables (query : string) (location : Coordinates).

Let operation := findLocalServices_operation JSON_parse query location.

(** The [catch] of the operation turns every rejection of the [try] block
    into the empty result. *)
Lemma operation_catches env x env' :
  findLocalServices_try JSON_parse query location env = (Rejected x, env') ->
  exists env'', operation env = (Resolved emptyResult, env'').
Proof.
  intros Htry. unfold operation, findLocalServices_operation,
    AsyncM.try_catch.
  rewrite Htry. eexists. reflexivity.
Qed.

(** The operation never rejects. *)
Lemma operation_resolves env :
  exists v env', operation env = (Resolved v, env').
Proof.
  unfold operation, findLocalServices_operation, AsyncM.try_catch.
  destruct (findLocalServices_try JSON_parse query location env)
    as [[v|x] env']; eauto.
Qed.

(** It sends at most one request. *)
Lemma operation_requests env :
  (length (requests (snd (operation env))) <= S (length (requests env)))%nat.
Proof.
  unfold operation, findLocalServices_operation, findLocalServices_try,
    AsyncM.try_catch, AsyncM.bind, getAI, generateContent, AsyncM.throw,
    AsyncM.ret, console_error, AsyncM.modify.
  destruct (API_KEY env) as [k|]; [destruct (String.eqb k "")|];
    cbn; try lia.
  destruct (respond env (length (requests env))) as [r|x]; cbn; try lia.
  destruct (falsy_string (text r)); cbn; try lia.
  destruct (text r) as [t|]; cbn; try lia.
  destruct (JSON_parse t); cbn; lia.
Qed.

(** Each failure inside the [try] block makes it reject. *)
Lemma try_rejects env :
  LookupFailure JSON_parse env ->
  exists x env',
    findLocalServices_try JSON_parse query location env = (Rejected x, env').
Proof.
  unfold findLocalServices_try, AsyncM.bind, getAI, generateContent,
    AsyncM.throw, falsy_string.
  intros [Hkey | x Hkey Hresp | r Hkey Hresp Htext | r t x Hkey Hresp Ht Htext Hparse];
    unfold falsy_string in Hkey;
    destruct (API_KEY env) as [k|]; try discriminate;
    try rewrite Hkey; eauto; rewrite Hresp; eauto.
  - unfold falsy_string in Htext. destruct (text r) as [t|].
    + rewrite Htext. eauto.
    + eauto.
  - rewrite Ht in *. unfold falsy_string in Htext. rewrite Htext, Hparse. eauto.
Qed.

(** And the block rejects for no other reason. *)
Lemma try_rejects_only_on_failure env x env' :
  findLocalServices_try JSON_parse query location env = (Rejected x, env') ->
  LookupFailure JSON_parse env.
Proof.
  unfold findLocalServices_try, AsyncM.bind, getAI, generateContent,
    AsyncM.throw.
  destruct (API_KEY env) as [k|] eqn:Hk;
    [destruct (String.eqb k "") eqn:Hempty|].
  - intros _. apply MissingApiKey. now rewrite Hk.
  - assert (Hkey : falsy_string (API_KEY env) = false) by now rewrite Hk.
    destruct (respond env (length (requests env))) as [r|y] eqn:Hresp.
    + destruct (falsy_string (text r)) eqn:Htext.
      * intros _. exact (EmptyResponse _ env r Hkey Hresp Htext).
      * destruct (text r) as [t|] eqn:Ht; [|discriminate Htext].
        destruct (JSON_parse t) as [v|y] eqn:Hparse; [discriminate|].
        intros _. rewrite <- Ht in Htext.
        exact (MalformedJson _ env r t y Hkey Hresp Ht Htext Hparse).
    + intros _. exact (RequestError _ env y Hkey Hresp).
  - intros _. apply MissingApiKey. now rewrite Hk.
Qed.
End Lookup.

End GenAIFacts.

(** ** The local-service lookup and the plan view *)

Module LookupFacts.
Import Types GenAI Samples.

Section Lookup.
Variable JSON_parse : string -> Outcome LocalSearchResult.
Variables (query : string) (location : Coordinates).

(** Under the wrapper the operation is invoked once and its result
    returned. *)
Lemma findLocalServices_run env :
  exists v env',
    findLocalServices_operation JSON_parse query location env
      = (Resolved v, env') /\
    findLocalServices JSON_parse query location (Retry.start env)
      = (Resolved v, Retry.mkSched env' [Retry.EvInvoke]).
Proof.
  destruct (GenAIFacts.operation_resolves JSON_parse query location env)
    as (v & env' & Hop).
  exists v, env'. split; [exact Hop|].
  unfold findLocalServices, Retry.retryOperation_default.
  apply RetryFacts.retryOperation_first_resolved; [lia|exact Hop].
Qed.
End Lookup.

(** C8. Whatever fails inside a local-service lookup (no API key, a
    rejected request, a response without text, text that does not parse),
    [findLocalServices] resolves with [{ providers: [] }]; the plan view
    that awaited it stores that result for the phase, clears the loading
    flag and shows no alert. *)
Theorem findLocalServices_failure_is_empty_result
    (JSON_parse : string -> Outcome LocalSearchResult)
    (query : string) (location : Coordinates) (env : Env) :
  LookupFailure JSON_parse env ->
  fst (findLocalServices JSON_parse query location (Retry.start env))
    = Resolved emptyResult /\
  forall (v : PlanView.View) (index : Z),
    PlanView.net v = env ->
    let v' :=
      PlanView.handleSearchForPhase JSON_parse (Some location) index query v in
    PlanView.alerts v' = PlanView.alerts v /\
    PlanView.phaseResults v' !! index = Some emptyResult /\
    PlanView.loadingPhases v' !! index = Some false.
Proof.
  intros Hfail.
  destruct (GenAIFacts.try_rejects JSON_parse query location env Hfail)
    as (x & env1 & Htry).
  destruct (GenAIFacts.operation_catches JSON_parse query location env x env1 Htry)
    as (env2 & Hop).
  assert (Hrun :
    findLocalServices JSON_parse query location (Retry.start env)
      = (Resolved emptyResult, Retry.mkSched env2 [Retry.EvInvoke])).
  { unfold findLocalServices, Retry.retryOperation_default.
    apply RetryFacts.retryOperation_first_resolved; [lia|exact Hop]. }
  split; [now rewrite Hrun|].
  intros v index Hnet.
  unfold PlanView.handleSearchForPhase, PlanView.call_findLocalServices.
  cbn [PlanView.setLoadingPhases PlanView.net]. rewrite Hnet, Hrun.
  cbn. split; [reflexivity|]. split; apply lookup_insert_eq.
Qed.

Lemma findLocalServices_failure_is_empty_result_witness :
  LookupFailure parse_nothing env_no_key /\
  fst (findLocalServices parse_nothing "Native Plant Nursery" berlin
         (Retry.start env_no_key))
    = Resolved emptyResult /\
  forall (v : PlanView.View) (index : Z),
    PlanView.net v = env_no_key ->
    let v' :=
      PlanView.handleSearchForPhase parse_nothing (Some berlin) index
        "Native Plant Nursery" v in
    PlanView.alerts v' = PlanView.alerts v /\
    PlanView.phaseResults v' !! index = Some emptyResult /\
    PlanView.loadingPhases v' !! index = Some false.
Proof.
  assert (H : LookupFailure parse_nothing env_no_key)
    by (apply MissingApiKey; reflexivity).
  split; [exact H|].
  apply (findLocalServices_failure_is_empty_result parse_nothing
           "Native Plant Nursery" berlin env_no_key H).
Defined.

(** C9. Whatever the service answers, rate limiting and unavailability
    included, [findLocalServices] invokes its operation exactly once, sleeps
    for no backoff delay and resolves: the operation's own [catch] leaves
    [retryOperation] no rejection to classify. At most one request is
    sent. *)
Theorem findLocalServices_single_attempt
    (JSON_parse : string -> Outcome LocalSearchResult)
    (query : string) (location : Coordinates) (env : Env) :
  let (out, s) := findLocalServices JSON_parse query location (Retry.start env) in
  Retry.log s = [Retry.EvInvoke] /\
  Retry.invocations (Retry.log s) = 1 /\
  Retry.delays (Retry.log s) = [] /\
  (exists v, out = Resolved v) /\
  (length (requests (Retry.world s)) <= S (length (requests env)))%nat.
Proof.
  destruct (findLocalServices_run JSON_parse query location env)
    as (v & env' & Hop & Hrun).
  rewrite Hrun. cbn [Retry.world].
  repeat split; eauto.
  pose proof (GenAIFacts.operation_requests JSON_parse query location env) as Hle.
  rewrite Hop in Hle. exact Hle.
Qed.

(** A service that always answers 429: the lookup asks once and gives the
    empty result, where the same request with its error thrown on is made
    three times, 2000 ms and 4000 ms apart. *)
Example findLocalServices_rate_limited :
  (let (out, s) :=
     findLocalServices parse_nothing "Landscaper" berlin
       (Retry.start env_rate_limited) in
   out = Resolved emptyResult /\
   Retry.timeline (Retry.log s) = [Retry.EvInvoke] /\
   length (requests (Retry.world s)) = 1%nat) /\
  (let (out, s) :=
     findLocalServices_rethrowing parse_nothing "Landscaper" berlin
       (Retry.start env_rate_limited) in
   out = Rejected (Js.Obj too_many_requests) /\
   Retry.timeline (Retry.log s) =
     [Retry.EvInvoke; Retry.EvSleep 2000; Retry.EvInvoke; Retry.EvSleep 4000;
      Retry.EvInvoke] /\
   length (requests (Retry.world s)) = 3%nat).
Proof. vm_compute. repeat split. Qed.

(** C7. Without a location [handleSearchForPhase] only shows the notice:
    [findLocalServices] is not called, no request is sent, and the
    per-phase results and loading flags are as they were. *)
Theorem handleSearchForPhase_without_location
    (JSON_parse : string -> Outcome LocalSearchResult)
    (index : Z) (category : string) (v : PlanView.View) :
  let v' := PlanView.handleSearchForPhase JSON_parse None index category v in
  PlanView.lookups v' = PlanView.lookups v /\
  PlanView.net v' = PlanView.net v /\
  PlanView.alerts v' =
    "Location is required to find local help." :: PlanView.alerts v /\
  PlanView.phaseResults v' = PlanView.phaseResults v /\
  PlanView.loadingPhases v' = PlanView.loadingPhases v.
Proof. cbn. repeat split. Qed.

(** With a location the same call does reach the service. *)
Example handleSearchForPhase_with_location :
  let v' :=
    PlanView.handleSearchForPhase parse_nothing (Some berlin) 2 "Landscaper"
      (fresh_view env_rate_limited) in
  PlanView.lookups v' = [("Landscaper", berlin)] /\
  length (requests (PlanView.net v')) = 1%nat /\
  PlanView.alerts v' = [] /\
  PlanView.phaseResults v' !! 2 = Some emptyResult /\
  PlanView.loadingPhases v' !! 2 = Some false.
Proof. vm_compute. repeat split. Qed.

End LookupFacts.

(** ** The review view *)

Module AnalysisViewFacts.
Import Types AnalysisView Samples.

Lemma isViable_spec score : isViable score = true <-> 30 < score.
Proof. unfold isViable. rewrite Z.gtb_ltb. apply Z.ltb_lt. Qed.

Lemma isViable_false score : score <= 30 -> isViable score = false.
Proof.
  intros H. destruct (isViable score) eqn:E; [|reflexivity].
  apply isViable_spec in E. lia.
Qed.

(** What a click on a rendered button can select. *)
Lemma click_viable props selectedBudget item c :
  In c (click (render_button props selectedBudget item)) ->
  sel_type c = fst item /\ sel_budget c = selectedBudget /\ 30 < snd item.
Proof.
  destruct item as [name score]. unfold click, render_button.
  cbn [btn_disabled btn_onClick fst snd].
  destruct (isViable score) eqn:E.
  - destruct (isGenerating props); cbn; [tauto|].
    intros [<-|[]]. apply isViable_spec in E. auto.
  - rewrite orb_true_r. cbn. tauto.
Qed.

(** C10. A button of the review view rendered for a type whose score is
    not above 30 is disabled and its click handler does not call
    [onSelectType]; whatever a button does select is the type it was
    rendered for, and that type scores above 30. *)
Theorem low_score_not_selectable (props : Props) (selectedBudget : BudgetLevel)
    (b : Button) :
  In b (render_buttons props selectedBudget) ->
  In (btn_key b, btn_score b) (suitability (analysis props)) /\
  (btn_score b <= 30 ->
     btn_disabled b = true /\ btn_onClick b = [] /\ click b = []) /\
  (forall c, In c (btn_onClick b) \/ In c (click b) ->
     sel_type c = btn_key b /\ 30 < btn_score b).
Proof.
  unfold render_buttons. rewrite in_map_iff.
  intros ([name score] & <- & Hin).
  cbn [render_button btn_key btn_score btn_disabled btn_onClick].
  split; [exact Hin|]. split.
  - intros Hlow. unfold click. cbn [btn_disabled btn_onClick].
    rewrite (isViable_false score Hlow), orb_true_r. auto.
  - intros c Hc.
    assert (Hon : In c (if isViable score
                        then [mkSelectCall name selectedBudget] else [])).
    { destruct Hc as [Hc|Hc]; [exact Hc|].
      unfold click in Hc. cbn [btn_disabled btn_onClick] in Hc.
      destruct (isGenerating props || negb (isViable score)); [destruct Hc|exact Hc]. }
    destruct (isViable score) eqn:E; [|destruct Hon].
    destruct Hon as [<-|[]]. apply isViable_spec in E. auto.
Qed.

Lemma low_score_not_selectable_witness :
  let b := render_button (mkProps paved_yard false) MEDIUM (RAIN_GARDEN, 30) in
  In b (render_buttons (mkProps paved_yard false) MEDIUM) /\
  In (btn_key b, btn_score b) (suitability paved_yard) /\
  (btn_score b <= 30 ->
     btn_disabled b = true /\ btn_onClick b = [] /\ click b = []) /\
  (forall c, In c (btn_onClick b) \/ In c (click b) ->
     sel_type c = btn_key b /\ 30 < btn_score b).
Proof.
  assert (H : In (render_button (mkProps paved_yard false) MEDIUM (RAIN_GARDEN, 30))
                 (render_buttons (mkProps paved_yard false) MEDIUM)).
  { cbn. right. right. left. reflexivity. }
  split; [exact H|].
  apply (low_score_not_selectable (mkProps paved_yard false) MEDIUM _ H).
Defined.

(** The session starts a generation only for a type the review view
    offers: one that scores above 30 in the analysis held. *)
Lemma selection_scores_above_30 (s s' : App.Sys) type budget :
  App.step s (App.LSelectType type budget) = Some s' ->
  exists a score,
    Types.analysis (App.project (App.ui s)) = Some a /\
    In (type, score) (suitability a) /\ 30 < score.
Proof.
  cbn [App.step]. destruct (App.offers (App.ui s) type budget) eqn:Hoff;
    [|discriminate].
  intros _. unfold App.offers in Hoff.
  destruct (App.appState (App.ui s)); try discriminate.
  destruct (Types.analysis (App.project (App.ui s))) as [a|]; [|discriminate].
  apply existsb_exists in Hoff as (btn & Hbtn & Hc).
  apply existsb_exists in Hc as (c & Hc & Heq).
  apply String.eqb_eq in Heq.
  unfold render_buttons in Hbtn. apply in_map_iff in Hbtn as (item & <- & Hin).
  apply click_viable in Hc as (Hty & _ & Hscore).
  destruct item as [name score]. cbn [fst snd] in *.
  cbn [AnalysisView.analysis] in Hin.
  exists a, score. rewrite <- Heq, Hty. auto.
Qed.

(** The buttons of the sample analysis: scores 85 and 31 can be selected,
    15, 30 and 10 cannot. *)
Example paved_yard_buttons :
  map (fun b => (btn_score b, btn_disabled b, length (click b)))
      (render_buttons (mkProps paved_yard false) LOW)
  = [(85, false, 1%nat); (15, true, 0%nat); (30, true, 0%nat);
     (31, false, 1%nat); (10, true, 0%nat)].
Proof. reflexivity. Qed.

End AnalysisViewFacts.

(** ** The session controller *)

Module AppFacts.
Import Types App Samples.

Lemma settle_one_other p l rest :
  settle_one p l = Some rest ->
  Pending_eqb PGeneration p = false ->
  existsb (Pending_eqb PGeneration) rest = existsb (Pending_eqb PGeneration) l.
Proof.
  revert rest. induction l as [|q l IH]; intros rest; cbn [settle_one existsb];
    [discriminate|].
  destruct (Pending_eqb p q) eqn:E.
  - intros [= <-] Hp.
    assert (Hq : Pending_eqb PGeneration q = false)
      by (destruct p, q; try discriminate; reflexivity).
    now rewrite Hq.
  - destruct (settle_one p l) as [l''|]; [|discriminate].
    intros [= <-] Hp. cbn [existsb]. now rewrite (IH l'' eq_refl Hp).
Qed.

Lemma settle_one_subset p l rest :
  settle_one p l = Some rest ->
  existsb (Pending_eqb PGeneration) rest = true ->
  existsb (Pending_eqb PGeneration) l = true.
Proof.
  revert rest. induction l as [|q l IH]; intros rest; cbn [settle_one existsb];
    [discriminate|].
  destruct (Pending_eqb p q).
  - intros [= <-] ->. apply orb_true_r.
  - destruct (settle_one p l) as [l''|]; [|discriminate].
    intros [= <-]. cbn [existsb]. rewrite !orb_true_iff. intros [H|H]; [now left|].
    right. now apply (IH l'').
Qed.

Lemma settle_one_was_waiting p l rest :
  settle_one p l = Some rest -> existsb (Pending_eqb p) l = true.
Proof.
  revert rest. induction l as [|q l IH]; intros rest; cbn [settle_one existsb];
    [discriminate|].
  destruct (Pending_eqb p q); [reflexivity|].
  destruct (settle_one p l) as [l''|]; [|discriminate].
  intros _. now apply (IH l'').
Qed.

(** One allowed event keeps [generation_has_analysis]. *)
Lemma step_keeps_analysis s l s' :
  no_reset_in_flight s l = true ->
  step s l = Some s' ->
  generation_has_analysis s -> generation_has_analysis s'.
Proof.
  unfold generation_has_analysis, plan_has_analysis, waiting.
  intros Hallowed Hstep [Hgen Hplan].
  destruct l; cbn [step] in Hstep.
  - (* LChooseFile *)
    destruct (shows_landing (ui s)); [|discriminate].
    injection Hstep as <-. cbn. auto.
  - (* LDemoClick *)
    destruct (shows_landing (ui s) && negb (loadingDemo (ui s))); [|discriminate].
    injection Hstep as <-. cbn. auto.
  - (* LFetchDone *)
    destruct (settle_one PFetch (inflight s)) as [rest|] eqn:E; [|discriminate].
    pose proof (settle_one_other _ _ _ E eq_refl) as Hrest.
    destruct r; injection Hstep as <-; cbn; rewrite Hrest; auto.
  - (* LReadDone *)
    destruct (settle_one (PRead demo) (inflight s)) as [rest|] eqn:E;
      [|discriminate].
    pose proof (settle_one_other _ _ _ E eq_refl) as Hrest.
    injection Hstep as <-. destruct demo; cbn; rewrite Hrest; auto.
  - (* LLocateClick *)
    destruct (shows_landing (ui s) && _); [|discriminate].
    destruct supported; injection Hstep as <-; cbn; auto.
  - (* LLocateDone *)
    destruct (settle_one PLocate (inflight s)) as [rest|] eqn:E; [|discriminate].
    pose proof (settle_one_other _ _ _ E eq_refl) as Hrest.
    destruct r; injection Hstep as <-; cbn; rewrite Hrest; auto.
  - (* LAnalysisDone *)
    destruct (settle_one PAnalysis (inflight s)) as [rest|] eqn:E;
      [|discriminate].
    pose proof (settle_one_other _ _ _ E eq_refl) as Hrest.
    destruct r; cbn in Hstep; injection Hstep as <-; cbn; rewrite Hrest;
      auto; split; discriminate.
  - (* LSelectType *)
    destruct (offers (ui s) type b); [|discriminate].
    unfold handleTypeSelection_begin in Hstep.
    destruct (falsy_string _ || falsy_object (analysis (project (ui s))))
      eqn:Eguard; injection Hstep as <-; cbn; [auto|].
    apply orb_false_iff in Eguard as [_ Han].
    destruct (analysis (project (ui s))); [|discriminate].
    split; discriminate.
  - (* LGenerationDone *)
    destruct (settle_one PGeneration (inflight s)) as [rest|] eqn:E;
      [|discriminate].
    pose proof (settle_one_was_waiting _ _ _ E) as Hwas.
    pose proof (settle_one_subset _ _ _ E) as Hsub.
    destruct (promise_all image_first r1 r2) as [[img p]|x];
      cbn in Hstep; injection Hstep as <-; cbn; auto.
  - (* LReset *)
    cbn in Hallowed. unfold waiting in Hallowed.
    apply negb_true_iff in Hallowed.
    injection Hstep as <-. cbn. rewrite Hallowed.
    split; [discriminate|]. intros H. now contradiction H.
Qed.

Lemma run_keeps_analysis trace : forall s s',
  run_with no_reset_in_flight s trace = Some s' ->
  generation_has_analysis s -> generation_has_analysis s'.
Proof.
  induction trace as [|l trace IH]; intros s s'; cbn.
  - now intros [= <-].
  - destruct (no_reset_in_flight s l) eqn:Hallowed; [|discriminate].
    destruct (step s l) as [s1|] eqn:Hstep; [|discriminate].
    intros Hrun Hs. apply (IH s1 s' Hrun).
    exact (step_keeps_analysis s l s1 Hallowed Hstep Hs).
Qed.

Lemma boot_has_analysis : generation_has_analysis boot.
Proof.
  split; [discriminate|]. intros H. now contradiction H.
Qed.

(** A rejection leaves the project as [handleTypeSelection] finds it when
    it resumes, whatever ran during the [await]. *)
Lemma handleTypeSelection_settle_rejected x st :
  handleTypeSelection_settle (Rejected x) st =
    (setAppState REVIEW_ANALYSIS st, ["Generation failed. Please try again."]) /\
  project (setAppState REVIEW_ANALYSIS st) = project st.
Proof. split; reflexivity. Qed.

Lemma promise_all_resolved {A B} image_first (r1 : Outcome A) (r2 : Outcome B) v :
  promise_all image_first r1 r2 = Resolved v <->
  r1 = Resolved (fst v) /\ r2 = Resolved (snd v).
Proof.
  destruct v as [a b]. destruct r1, r2; cbn; split;
    try discriminate; try (intros [H1 H2]; discriminate).
  - now intros [= -> ->].
  - now intros [[= ->] [= ->]].
Qed.

Lemma promise_all_rejected {A B} image_first (r1 : Outcome A) (r2 : Outcome B) :
  (exists x, r1 = Rejected x) \/ (exists x, r2 = Rejected x) ->
  exists x, promise_all image_first r1 r2 = Rejected x.
Proof.
  intros [[x ->]|[x ->]]; [destruct r2|destruct r1]; cbn; eauto.
Qed.

(** C4. In [handleTypeSelection] the state is [GENERATING_VISION] while the
    two requests are awaited and becomes [COMPLETE] exactly when both have
    resolved; when either rejects it is set to [REVIEW_ANALYSIS], and
    [plan] and [restoredImage] are what they were before the call. *)
Theorem handleTypeSelection_complete_only_when_both
    (type : RestorationType) (b : BudgetLevel) (st st1 : State)
    (image_first : bool) (r1 : Outcome string) (r2 : Outcome RestorationPlan) :
  handleTypeSelection_begin type b st = (st1, true) ->
  let (st2, shown) :=
    handleTypeSelection_settle (promise_all image_first r1 r2) st1 in
  appState st1 = GENERATING_VISION /\
  (appState st2 = COMPLETE <->
     exists img p, r1 = Resolved img /\ r2 = Resolved p) /\
  ((exists x, r1 = Rejected x) \/ (exists x, r2 = Rejected x) ->
     appState st2 = REVIEW_ANALYSIS /\
     plan (project st2) = plan (project st) /\
     restoredImage (project st2) = restoredImage (project st)).
Proof.
  unfold handleTypeSelection_begin.
  destruct (falsy_string _ || falsy_object _); [discriminate|].
  intros [= <-].
  destruct (promise_all image_first r1 r2) as [[img p]|x] eqn:Hall;
    cbn [handleTypeSelection_settle].
  - apply promise_all_resolved in Hall as [-> ->]. cbn.
    split; [reflexivity|]. split.
    + split; eauto.
    + intros [[x [=]]|[x [=]]].
  - cbn. split; [reflexivity|]. split.
    + split; [discriminate|].
      intros (img & p & -> & ->). discriminate Hall.
    + auto.
Qed.

Lemma handleTypeSelection_complete_only_when_both_witness :
  handleTypeSelection_begin POLLINATOR_HAVEN LOW in_review
    = (setAppState GENERATING_VISION
         (setProject (with_selection POLLINATOR_HAVEN LOW) in_review), true) /\
  let (st2, shown) :=
    handleTypeSelection_settle
      (promise_all true (Resolved "cmVzdG9yZWQ=")
         (@Rejected RestorationPlan (Js.Obj quota_error)))
      (setAppState GENERATING_VISION
         (setProject (with_selection POLLINATOR_HAVEN LOW) in_review)) in
  appState (setAppState GENERATING_VISION
              (setProject (with_selection POLLINATOR_HAVEN LOW) in_review))
    = GENERATING_VISION /\
  (appState st2 = COMPLETE <->
     exists img p, Resolved "cmVzdG9yZWQ=" = Resolved img /\
                   @Rejected RestorationPlan (Js.Obj quota_error) = Resolved p) /\
  ((exists x, @Resolved string "cmVzdG9yZWQ=" = Rejected x) \/
   (exists x, @Rejected RestorationPlan (Js.Obj quota_error) = Rejected x) ->
     appState st2 = REVIEW_ANALYSIS /\
     plan (project st2) = plan (project in_review) /\
     restoredImage (project st2) = restoredImage (project in_review)).
Proof.
  split; [reflexivity|].
  apply (handleTypeSelection_complete_only_when_both POLLINATOR_HAVEN LOW
           in_review _ true (Resolved "cmVzdG9yZWQ=")
           (Rejected (Js.Obj quota_error))).
  reflexivity.
Defined.

(** C5, as stated, fails: [resetApp] can run while the generation is
    awaited; the continuation of [handleTypeSelection] then writes the plan
    into the project that the reset has just emptied. *)
Lemma plan_without_analysis_after_reset :
  exists s,
    run boot reset_during_generation = Some s /\
    appState (ui s) = COMPLETE /\
    plan (project (ui s)) = Some three_phase_plan /\
    analysis (project (ui s)) = None /\
    ~ plan_has_analysis (ui s).
Proof.
  eexists. split; [vm_compute; reflexivity|].
  split; [reflexivity|]. split; [reflexivity|]. split; [reflexivity|].
  intros H. apply H; [discriminate|reflexivity].
Qed.

(** C5, amended. Along every run in which [resetApp] is not invoked while a
    generation started by [handleTypeSelection] is in flight, a project that
    holds a plan holds an analysis. *)
Theorem plan_has_analysis_without_reset_in_flight (trace : list Label) (s : Sys) :
  run_with no_reset_in_flight boot trace = Some s ->
  plan_has_analysis (ui s).
Proof.
  intros Hrun.
  exact (proj2 (run_keeps_analysis trace boot s Hrun boot_has_analysis)).
Qed.

Lemma plan_has_analysis_without_reset_in_flight_witness :
  run_with no_reset_in_flight boot undisturbed_generation
    = Some (mkSys
              (mkState COMPLETE
                 (with_generated "cmVzdG9yZWQ=" three_phase_plan
                    (with_selection POLLINATOR_HAVEN MEDIUM (project in_review)))
                 false false)
              [] []) /\
  plan_has_analysis
    (mkState COMPLETE
       (with_generated "cmVzdG9yZWQ=" three_phase_plan
          (with_selection POLLINATOR_HAVEN MEDIUM (project in_review)))
       false false).
Proof.
  assert (H : run_with no_reset_in_flight boot undisturbed_generation
    = Some (mkSys
              (mkState COMPLETE
                 (with_generated "cmVzdG9yZWQ=" three_phase_plan
                    (with_selection POLLINATOR_HAVEN MEDIUM (project in_review)))
                 false false)
              [] [])) by (vm_compute; reflexivity).
  split; [exact H|].
  exact (plan_has_analysis_without_reset_in_flight undisturbed_generation _ H).
Defined.

(** [resetApp] clears the plan and the analysis together. *)
Lemma resetApp_clears st :
  plan (project (resetApp st)) = None /\
  analysis (project (resetApp st)) = None /\
  appState (resetApp st) = IDLE.
Proof. repeat split. Qed.

(** C6. When the first analysis of a session is rejected, the state set to
    [ANALYZING] by [startAnalysis] is set back to [IDLE], the notice is
    shown, and the project still has no analysis. *)
Theorem startAnalysis_failure_returns_to_idle
    (base64Data : string) (demo : bool) (x : Js.Thrown) :
  let st1 := onloadend base64Data demo initial in
  let (st2, shown) := startAnalysis_settle (Rejected x) st1 in
  analysis (project initial) = None /\
  appState st1 = ANALYZING /\
  appState st2 = IDLE /\
  analysis (project st2) = None /\
  shown = ["Failed to analyze image. Please try again."] /\
  run boot [LChooseFile; LReadDone base64Data false; LAnalysisDone (Rejected x)]
    = Some (mkSys (setAppState IDLE (onloadend base64Data false initial)) []
                  ["Failed to analyze image. Please try again."]).
Proof. destruct demo; repeat split. Qed.

(** From any state, a rejected analysis leaves the project untouched. *)
Lemma startAnalysis_settle_rejected x st :
  project (fst (startAnalysis_settle (Rejected x) st)) = project st /\
  appState (fst (startAnalysis_settle (Rejected x) st)) = IDLE.
Proof. split; reflexivity. Qed.

End AppFacts.

(** ** The retry wrapper on any operation *)

Module RetryGeneral.
Import Retry RetryAux.

Lemma not_transient_resolved {T} (v : T) : ~ transient (Resolved v).
Proof. intros (e & H & _). discriminate H. Qed.

Lemma not_transient_undefined {T} : ~ transient (@Rejected T Js.Undefined).
Proof. intros (e & H & _). discriminate H. Qed.

Lemma not_transient_fatal {T} e :
  shouldRetry (Js.err_status e) = false -> ~ transient (@Rejected T (Js.Obj e)).
Proof. intros Hf (e' & [= <-] & Ht). congruence. Qed.

Lemma transient_obj {T} e :
  shouldRetry (Js.err_status e) = true -> transient (@Rejected T (Js.Obj e)).
Proof. intros H. exists e. auto. Qed.

Section AnyOperation.
Context {W T : Type}.
Variable operation : Async W T.
Variables maxRetries initialDelay : Z.

(** The loop on any operation: it makes some number [k] of attempts, all
    but the last of them failing transiently, and settles as the last one
    did. It stops before its bound only on an attempt that is no transient
    failure. *)
Lemma retry_loop_any n : forall i lastError (s : Sched W),
  (1 <= n)%nat ->
  Z.of_nat n = maxRetries - i ->
  exists (k : nat) (evs : list Event),
    (1 <= k <= n)%nat /\
    (forall j, (j < k - 1)%nat ->
               transient (attempt_outcome operation j (world s))) /\
    ((k < n)%nat ->
       ~ transient (attempt_outcome operation (k - 1) (world s))) /\
    retry_loop operation maxRetries initialDelay n i lastError s =
      (as_caught (attempt_outcome operation (k - 1) (world s)),
       mkSched (world_before operation k (world s)) (rev evs ++ events s)) /\
    timeline evs = timeline_from initialDelay i k.
Proof.
  induction n as [|n IH]; intros i lastError s Hn Hi; [lia|].
  cbn [retry_loop].
  assert (Hlt : (i <? maxRetries) = true) by (apply Z.ltb_lt; lia).
  rewrite Hlt. unfold AsyncM.try_catch, invoke.
  destruct (operation (world s)) as [r w'] eqn:Hop.
  assert (H0 : attempt_outcome operation 0 (world s) = r)
    by (unfold attempt_outcome; cbn [world_before]; now rewrite Hop).
  assert (Hw1 : world_before operation 1 (world s) = w')
    by (cbn [world_before]; now rewrite Hop).
  destruct r as [v|[|e]].
  - exists 1%nat, [EvInvoke]. cbn [Nat.sub]. rewrite H0, Hw1.
    repeat split; try lia.
    + intros _. apply not_transient_resolved.
  - exists 1%nat, [EvInvoke]. cbn [Nat.sub]. rewrite H0, Hw1.
    repeat split; try lia.
    + intros _. apply not_transient_undefined.
  - cbn [get_status]. unfold AsyncM.bind at 1. unfold AsyncM.ret at 1.
    destruct (shouldRetry (Js.err_status e)) eqn:Hretry; cbn [andb].
    + destruct n as [|n].
      * assert (Hlast : (i <? maxRetries - 1) = false)
          by (apply Z.ltb_ge; lia).
        rewrite Hlast. exists 1%nat, [EvInvoke]. cbn [Nat.sub].
        rewrite H0, Hw1. repeat split; try lia.
      * assert (Hmore : (i <? maxRetries - 1) = true)
          by (apply Z.ltb_lt; lia).
        rewrite Hmore. cbv zeta.
        unfold AsyncM.bind, emit, AsyncM.modify. cbn [world events].
        destruct (IH (i + 1) (Js.Obj e)
                    (mkSched w' (EvSleep (initialDelay * 2 ^ i)
                       :: EvWarn (i + 1) (Js.err_status e) (initialDelay * 2 ^ i)
                       :: EvInvoke :: events s)))
          as (k & evs & Hk & Hpre & Hstop & Hrun & Htl); [lia|lia|].
        cbn [world events] in *.
        assert (Hshift : forall j,
                  attempt_outcome operation (S j) (world s)
                  = attempt_outcome operation j w').
        { intros j. rewrite RetryFacts.attempt_outcome_S, Hop. reflexivity. }
        exists (S k),
          (EvInvoke :: EvWarn (i + 1) (Js.err_status e) (initialDelay * 2 ^ i)
             :: EvSleep (initialDelay * 2 ^ i) :: evs).
        replace (S k - 1)%nat with (S (k - 1)) by lia.
        split; [lia|]. split; [|split; [|split]].
        -- intros [|j] Hj.
           ++ rewrite H0. now apply transient_obj.
           ++ rewrite Hshift. apply Hpre. lia.
        -- intros Hlt'. rewrite Hshift. apply Hstop. lia.
        -- rewrite Hrun, Hshift. f_equal.
           cbn [world_before]. rewrite Hop. cbn [snd]. f_equal.
           cbn [rev]. rewrite <- !app_assoc. reflexivity.
        -- destruct k as [|k']; [lia|].
           rewrite RetryFacts.timeline_from_step. unfold timeline in *.
           cbn [List.filter is_warn negb]. now rewrite Htl.
    + exists 1%nat, [EvInvoke]. cbn [Nat.sub]. rewrite H0, Hw1.
      repeat split; try lia.
      * intros _. now apply not_transient_fatal.
Qed.

(** The wrapper started afresh. *)
Lemma retryOperation_any w :
  1 <= maxRetries ->
  exists (k : nat) (s : Sched W),
    (1 <= k)%nat /\ Z.of_nat k <= maxRetries /\
    (forall j, (j < k - 1)%nat -> transient (attempt_outcome operation j w)) /\
    (Z.of_nat k < maxRetries ->
       ~ transient (attempt_outcome operation (k - 1) w)) /\
    retryOperation operation maxRetries initialDelay (start w) =
      (as_caught (attempt_outcome operation (k - 1) w), s) /\
    world s = world_before operation k w /\
    timeline (log s) = backoff_timeline initialDelay k.
Proof.
  intros Hmax. unfold retryOperation.
  destruct (retry_loop_any (Z.to_nat maxRetries) 0 Js.Undefined (start w))
    as (k & evs & Hk & Hpre & Hstop & Hrun & Htl); [lia|lia|].
  cbn [world start] in *.
  eexists k, _. split; [lia|]. split; [lia|]. split; [exact Hpre|].
  split; [intros H; apply Hstop; lia|]. split; [exact Hrun|].
  unfold log. cbn [world events]. rewrite app_nil_r, rev_involutive.
  split; [reflexivity|exact Htl].
Qed.

(** When the first [k] attempts fail transiently and the next is no
    transient failure, the wrapper stops after that one. *)
Lemma retryOperation_decisive w (k : nat) :
  Z.of_nat k < maxRetries ->
  (forall j, (j < k)%nat -> transient (attempt_outcome operation j w)) ->
  ~ transient (attempt_outcome operation k w) ->
  exists s : Sched W,
    retryOperation operation maxRetries initialDelay (start w) =
      (as_caught (attempt_outcome operation k w), s) /\
    world s = world_before operation (S k) w /\
    timeline (log s) = backoff_timeline initialDelay (S k).
Proof.
  intros Hk Hpre Hstop.
  destruct (retryOperation_any w ltac:(lia))
    as (k' & s & Hk1 & Hk2 & Hpre' & Hstop' & Hrun & Hw & Htl).
  assert (k' = S k) as ->.
  { destruct (Nat.lt_trichotomy (k' - 1) k) as [Hlt|[Heq|Hgt]].
    - exfalso. apply Hstop'; [lia|]. apply Hpre. exact Hlt.
    - lia.
    - exfalso. apply Hstop. apply Hpre'. exact Hgt. }
  replace (S k - 1)%nat with k in Hrun by lia.
  exists s. auto.
Qed.
End AnyOperation.

Lemma total_delay_timeline l : total_delay (timeline l) = total_delay l.
Proof. unfold total_delay. now rewrite RetryFacts.delays_timeline. Qed.

Lemma total_delay_backoff base (k : nat) :
  total_delay (backoff_timeline base (S k)) = base * (2 ^ Z.of_nat k - 1).
Proof.
  unfold total_delay. rewrite <- RetryFacts.timeline_from_0.
  rewrite RetryFacts.delays_timeline_from.
  replace (S k - 1)%nat with k by lia.
  induction k as [|k IH]; [cbn; lia|].
  rewrite seq_S, map_app, fold_right_app. cbn [map fold_right].
  unfold backoff_delay at 1.
  replace (0 + Z.of_nat (1 + k) - 1) with (Z.of_nat k) by lia.
  rewrite Z.add_0_r.
  assert (Hfold : forall (l : list Z) (c : Z),
            fold_right Z.add c l = fold_right Z.add 0 l + c).
  { induction l as [|x l IHl]; intros c; cbn; [lia|]. rewrite IHl. lia. }
  rewrite Hfold, IH.
  rewrite Nat2Z.inj_succ, Z.pow_succ_r by lia. lia.
Qed.

End RetryGeneral.

Module RetryExtras.
Import Retry RetryAux Samples.

Lemma invocations_backoff base k :
  invocations (backoff_timeline base k) = Z.of_nat k.
Proof.
  rewrite <- RetryFacts.timeline_from_0.
  apply RetryFacts.invocations_timeline_from.
Qed.

(** X1. Whatever the operation does and whatever the bound, the wrapper
    makes [k] invocations for some [k] no larger than the bound (at least
    one when the bound is positive), sleeps exactly the backoff delays
    between them and none after the last, leaves the operation's world as
    invocation [k] left it, and settles as that last invocation did. *)
Theorem retryOperation_follows_schedule {W T : Type}
    (operation : Async W T) (maxRetries initialDelay : Z) (w : W) :
  let (out, s) := retryOperation operation maxRetries initialDelay (start w) in
  exists k : nat,
    Z.of_nat k <= Z.max 0 maxRetries /\
    (1 <= maxRetries -> (1 <= k)%nat) /\
    invocations (log s) = Z.of_nat k /\
    timeline (log s) = backoff_timeline initialDelay k /\
    world s = world_before operation k w /\
    ((1 <= k)%nat -> out = as_caught (attempt_outcome operation (k - 1) w)).
Proof.
  destruct (Z_lt_le_dec maxRetries 1) as [Hsmall|Hmax].
  - rewrite RetryFacts.retryOperation_no_attempts by lia.
    exists 0%nat. repeat split; try lia.
  - destruct (RetryGeneral.retryOperation_any operation maxRetries initialDelay
                w Hmax)
      as (k & s & Hk1 & Hk2 & _ & _ & Hrun & Hw & Htl).
    rewrite Hrun. exists k.
    rewrite <- RetryFacts.invocations_timeline, Htl, invocations_backoff.
    repeat split; auto; lia.
Qed.

(** X2. When the first [k] attempts fail transiently, [k] is below the
    bound and the next attempt resolves, the wrapper resolves with that
    value after [k + 1] invocations and the [k] backoff delays. *)
Theorem retryOperation_succeeds_after_transients {W T : Type}
    (operation : Async W T) (maxRetries initialDelay : Z) (w : W)
    (k : nat) (v : T) :
  Z.of_nat k < maxRetries ->
  (forall j, (j < k)%nat -> transient (attempt_outcome operation j w)) ->
  attempt_outcome operation k w = Resolved v ->
  let (out, s) := retryOperation operation maxRetries initialDelay (start w) in
  out = Resolved v /\
  invocations (log s) = Z.of_nat k + 1 /\
  timeline (log s) = backoff_timeline initialDelay (S k) /\
  delays (log s) =
    map (fun attempt => backoff_delay initialDelay (Z.of_nat attempt)) (seq 1 k) /\
  world s = world_before operation (S k) w.
Proof.
  intros Hk Hpre Hres.
  destruct (RetryGeneral.retryOperation_decisive operation maxRetries
              initialDelay w k Hk Hpre)
    as (s & Hrun & Hw & Htl).
  { rewrite Hres. apply RetryGeneral.not_transient_resolved. }
  rewrite Hrun, Hres.
  rewrite <- RetryFacts.invocations_timeline, <- RetryFacts.delays_timeline, Htl.
  rewrite invocations_backoff, <- RetryFacts.timeline_from_0,
    RetryFacts.delays_timeline_from.
  replace (S k - 1)%nat with k by lia.
  repeat split; auto; lia.
Qed.

Lemma retryOperation_succeeds_after_transients_witness :
  Z.of_nat 2 < 3 /\
  (forall j, (j < 2)%nat -> transient (attempt_outcome third_time_lucky j 0%nat)) /\
  attempt_outcome third_time_lucky 2 0%nat = Resolved "third" /\
  let (out, s) := retryOperation third_time_lucky 3 2000 (start 0%nat) in
  out = Resolved "third" /\
  invocations (log s) = Z.of_nat 2 + 1 /\
  timeline (log s) = backoff_timeline 2000 3 /\
  delays (log s) =
    map (fun attempt => backoff_delay 2000 (Z.of_nat attempt)) (seq 1 2) /\
  world s = world_before third_time_lucky 3 0%nat.
Proof.
  assert (H : forall j, (j < 2)%nat ->
                        transient (attempt_outcome third_time_lucky j 0%nat)).
  { intros j Hj. destruct j as [|[|j]]; [eexists; split; reflexivity..|lia]. }
  split; [lia|]. split; [exact H|]. split; [reflexivity|].
  apply (retryOperation_succeeds_after_transients third_time_lucky 3 2000
           0%nat 2 "third"); [lia|exact H|reflexivity].
Defined.

(** X3. When the first [k] attempts fail transiently, [k] is below the
    bound and the next attempt throws an error object whose status is
    neither 429 nor 503, the wrapper rejects with that object after
    [k + 1] invocations, without a further sleep. *)
Theorem retryOperation_stops_at_fatal {W T : Type}
    (operation : Async W T) (maxRetries initialDelay : Z) (w : W)
    (k : nat) (e : Js.Error) :
  Z.of_nat k < maxRetries ->
  (forall j, (j < k)%nat -> transient (attempt_outcome operation j w)) ->
  attempt_outcome operation k w = Rejected (Js.Obj e) ->
  shouldRetry (Js.err_status e) = false ->
  let (out, s) := retryOperation operation maxRetries initialDelay (start w) in
  out = Rejected (Js.Obj e) /\
  invocations (log s) = Z.of_nat k + 1 /\
  timeline (log s) = backoff_timeline initialDelay (S k) /\
  world s = world_before operation (S k) w.
Proof.
  intros Hk Hpre Hrej Hfatal.
  destruct (RetryGeneral.retryOperation_decisive operation maxRetries
              initialDelay w k Hk Hpre)
    as (s & Hrun & Hw & Htl).
  { rewrite Hrej. now apply RetryGeneral.not_transient_fatal. }
  rewrite Hrun, Hrej.
  rewrite <- RetryFacts.invocations_timeline, Htl, invocations_backoff.
  repeat split; auto; lia.
Qed.

Lemma retryOperation_stops_at_fatal_witness :
  Z.of_nat 1 < 3 /\
  (forall j, (j < 1)%nat -> transient (attempt_outcome busy_then_denied j 0%nat)) /\
  attempt_outcome busy_then_denied 1 0%nat = Rejected (Js.Obj permission_denied) /\
  shouldRetry (Js.err_status permission_denied) = false /\
  let (out, s) := retryOperation busy_then_denied 3 2000 (start 0%nat) in
  out = Rejected (Js.Obj permission_denied) /\
  invocations (log s) = Z.of_nat 1 + 1 /\
  timeline (log s) = backoff_timeline 2000 2 /\
  world s = world_before busy_then_denied 2 0%nat.
Proof.
  assert (H : forall j, (j < 1)%nat ->
                        transient (attempt_outcome busy_then_denied j 0%nat)).
  { intros j Hj. destruct j as [|j]; [eexists; split; reflexivity|lia]. }
  split; [lia|]. split; [exact H|]. split; [reflexivity|]. split; [reflexivity|].
  apply (retryOperation_stops_at_fatal busy_then_denied 3 2000 0%nat 1
           permission_denied); [lia|exact H|reflexivity|reflexivity].
Defined.

(** X4. With a non-negative base delay and a positive bound, the wrapper
    sleeps at most [initialDelay * (2^(maxRetries-1) - 1)] milliseconds in
    all, whatever the operation does: 6000 ms under the default policy. *)
Theorem retryOperation_total_delay_bound {W T : Type}
    (operation : Async W T) (maxRetries initialDelay : Z) (w : W) :
  0 <= initialDelay ->
  1 <= maxRetries ->
  let (out, s) := retryOperation operation maxRetries initialDelay (start w) in
  0 <= total_delay (log s) <= initialDelay * (2 ^ (maxRetries - 1) - 1).
Proof.
  intros Hbase Hmax.
  destruct (RetryGeneral.retryOperation_any operation maxRetries initialDelay
              w Hmax)
    as (k & s & Hk1 & Hk2 & _ & _ & Hrun & _ & Htl).
  rewrite Hrun, <- RetryGeneral.total_delay_timeline, Htl.
  destruct k as [|k]; [lia|].
  rewrite RetryGeneral.total_delay_backoff.
  assert (H1 : 0 < 2 ^ Z.of_nat k) by (apply Z.pow_pos_nonneg; lia).
  assert (H2 : 2 ^ Z.of_nat k <= 2 ^ (maxRetries - 1))
    by (apply Z.pow_le_mono_r; lia).
  split; nia.
Qed.

Lemma retryOperation_total_delay_bound_witness :
  0 <= 2000 /\ 1 <= 3 /\
  let (out, s) := retryOperation always_429 3 2000 (start 0%nat) in
  0 <= total_delay (log s) <= 2000 * (2 ^ (3 - 1) - 1).
Proof.
  split; [lia|]. split; [lia|].
  apply (retryOperation_total_delay_bound always_429 3 2000 0%nat); lia.
Defined.

(** X5. With a bound of zero or less the operation is never invoked and
    the wrapper rejects with [undefined], the initial value of
    [lastError]. *)
Theorem retryOperation_without_attempts {W T : Type}
    (operation : Async W T) (maxRetries initialDelay : Z) (w : W) :
  maxRetries <= 0 ->
  let (out, s) := retryOperation operation maxRetries initialDelay (start w) in
  out = Rejected Js.Undefined /\
  log s = [] /\
  invocations (log s) = 0 /\
  world s = w.
Proof.
  intros Hmax. rewrite RetryFacts.retryOperation_no_attempts by exact Hmax.
  repeat split.
Qed.

Lemma retryOperation_without_attempts_witness :
  0 <= 0 /\
  let (out, s) := retryOperation third_time_lucky 0 2000 (start 0%nat) in
  out = Rejected Js.Undefined /\
  log s = [] /\
  invocations (log s) = 0 /\
  world s = 0%nat.
Proof.
  split; [lia|].
  apply (retryOperation_without_attempts third_time_lucky 0 2000 0%nat). lia.
Defined.

(** X6. When the first attempt rejects with [undefined], reading
    [error.status] in the [catch] throws: the wrapper rejects with a
    [TypeError] instead of the operation's reason, after that single
    invocation. *)
Theorem retryOperation_undefined_reason {W T : Type}
    (operation : Async W T) (maxRetries initialDelay : Z) (w w' : W) :
  1 <= maxRetries ->
  operation w = (Rejected Js.Undefined, w') ->
  let (out, s) := retryOperation operation maxRetries initialDelay (start w) in
  out = Rejected (Js.Obj (Js.type_error "status")) /\
  log s = [EvInvoke] /\
  world s = w'.
Proof.
  intros Hmax Hop. unfold retryOperation.
  destruct (Z.to_nat maxRetries) as [|n] eqn:Hn; [lia|].
  cbn [retry_loop].
  replace (0 <? maxRetries) with true by (symmetry; apply Z.ltb_lt; lia).
  unfold AsyncM.try_catch, invoke, start. cbn [world events].
  rewrite Hop. cbn. repeat split.
Qed.

Lemma retryOperation_undefined_reason_witness :
  1 <= 3 /\
  rejects_undefined 0%nat = (Rejected Js.Undefined, 1%nat) /\
  let (out, s) := retryOperation rejects_undefined 3 2000 (start 0%nat) in
  out = Rejected (Js.Obj (Js.type_error "status")) /\
  log s = [EvInvoke] /\
  world s = 1%nat.
Proof.
  split; [lia|]. split; [reflexivity|].
  apply (retryOperation_undefined_reason rejects_undefined 3 2000 0%nat 1%nat);
    [lia|reflexivity].
Defined.

End RetryExtras.

(** ** Analysis, vision image and plan under the wrapper *)

Module GeminiFacts.
Import Types Gemini GeminiAux.

Lemma falsy_string_spec (x : option string) :
  falsy_string x = false <-> exists s, x = Some s /\ s <> "".
Proof.
  destruct x as [s|]; cbn.
  - rewrite String.eqb_neq. split; [eauto|]. now intros (s' & [= <-] & H).
  - split; [discriminate|]. now intros (s' & [=] & _).
Qed.

Ltac one_request_done :=
  repeat split; (reflexivity || assumption || (symmetry; assumption)).

Section Operations.
Variable JSON_parse_analysis : string -> Outcome SiteAnalysis.
Variable JSON_parse_plan : string -> Outcome RestorationPlan.

Lemma analyze_one_request base64Image location :
  one_request (analyzeSiteImage_operation JSON_parse_analysis base64Image location)
    (analysis_request base64Image location)
    (analysis_of_reply JSON_parse_analysis).
Proof.
  split; [reflexivity|]. intros env.
  unfold analyzeSiteImage_operation, AsyncM.try_catch, AsyncM.bind, getAI,
    generateContent, AsyncM.throw, console_error, AsyncM.modify,
    analysis_of_reply, falsy_string.
  destruct (API_KEY env) as [k|] eqn:Hk;
    [destruct (String.eqb k "") eqn:He|]; cbn; try one_request_done.
  destruct (respond env (length (requests env))) as [r|x]; cbn;
    [|one_request_done].
  destruct (text r) as [t|]; cbn; [|one_request_done].
  destruct (String.eqb t ""); cbn; [one_request_done|].
  destruct (JSON_parse_analysis t); cbn; one_request_done.
Qed.

Lemma plan_one_request analysis type budget location :
  one_request
    (createExecutionPlan_operation JSON_parse_plan analysis type budget location)
    (plan_request analysis type budget location)
    (plan_of_reply JSON_parse_plan).
Proof.
  split; [reflexivity|]. intros env.
  unfold createExecutionPlan_operation, AsyncM.try_catch, AsyncM.bind, getAI,
    generateContent, AsyncM.throw, console_error, AsyncM.modify,
    plan_of_reply, falsy_string.
  destruct (API_KEY env) as [k|] eqn:Hk;
    [destruct (String.eqb k "") eqn:He|]; cbn; try one_request_done.
  destruct (respond env (length (requests env))) as [r|x]; cbn;
    [|one_request_done].
  destruct (text r) as [t|]; cbn; [|one_request_done].
  destruct (String.eqb t ""); cbn; [one_request_done|].
  destruct (JSON_parse_plan t); cbn; one_request_done.
Qed.
End Operations.

Lemma vision_one_request originalBase64 type analysis budget :
  one_request (generateVisionImage_operation originalBase64 type analysis budget)
    (vision_request originalBase64 type analysis budget)
    image_of_reply.
Proof.
  split; [reflexivity|]. intros env.
  unfold generateVisionImage_operation, AsyncM.try_catch, AsyncM.bind, getAI,
    generateContent, AsyncM.throw, AsyncM.ret, console_error, AsyncM.modify,
    image_of_reply, falsy_string.
  destruct (API_KEY env) as [k|] eqn:Hk;
    [destruct (String.eqb k "") eqn:He|]; cbn; try one_request_done.
  destruct (respond env (length (requests env))) as [r|x]; cbn;
    [|one_request_done].
  destruct (first_inline_data (candidate_parts r)); cbn; one_request_done.
Qed.

Section OneRequest.
Context {A : Type}.
Variable operation : Async Env A.
Variable req : Request.
Variable read : Outcome Response -> Outcome A.
Hypothesis Hone : one_request operation req read.

(** With a key, attempt [k] sends request number [k] after those already
    sent and reads its reply. *)
Lemma attempts_with_key (k : nat) : forall env,
  falsy_string (API_KEY env) = false ->
  API_KEY (Retry.world_before operation k env) = API_KEY env /\
  respond (Retry.world_before operation k env) = respond env /\
  requests (Retry.world_before operation k env) = repeat req k ++ requests env /\
  Retry.attempt_outcome operation k env
    = read (respond env (length (requests env) + k)).
Proof.
  induction k as [|k IH]; intros env Hkey.
  - cbn [Retry.world_before repeat app]. repeat split.
    unfold Retry.attempt_outcome. cbn [Retry.world_before].
    pose proof (proj2 Hone env) as H. destruct (operation env) as [r env'].
    rewrite Hkey in H. rewrite Nat.add_0_r. apply H.
  - rewrite RetryFacts.attempt_outcome_S. cbn [Retry.world_before].
    pose proof (proj2 Hone env) as H. destruct (operation env) as [r env'].
    rewrite Hkey in H. destruct H as (Hk & Hr & _ & Hreq). cbn [snd].
    destruct (IH env') as (IH1 & IH2 & IH3 & IH4); [now rewrite Hk|].
    rewrite IH1, IH2, IH3, IH4, Hk, Hr, Hreq.
    repeat split.
    + change (req :: requests env) with ([req] ++ requests env).
      rewrite app_assoc. f_equal. rewrite <- repeat_cons. reflexivity.
    + cbn [length]. do 2 f_equal. lia.
Qed.

(** Without a key, no attempt sends anything. *)
Lemma attempts_without_key (k : nat) : forall env,
  falsy_string (API_KEY env) = true ->
  requests (Retry.world_before operation k env) = requests env /\
  Retry.attempt_outcome operation k env
    = Rejected (Js.Obj GenAI.api_key_missing).
Proof.
  induction k as [|k IH]; intros env Hkey.
  - unfold Retry.attempt_outcome. cbn [Retry.world_before].
    pose proof (proj2 Hone env) as H. destruct (operation env) as [r env'].
    rewrite Hkey in H. split; [reflexivity|apply H].
  - rewrite RetryFacts.attempt_outcome_S. cbn [Retry.world_before].
    pose proof (proj2 Hone env) as H. destruct (operation env) as [r env'].
    rewrite Hkey in H. destruct H as (Hk & _ & _ & Hreq). cbn [snd].
    destruct (IH env') as (IH1 & IH2); [now rewrite Hk|].
    now rewrite IH1, IH2, Hreq.
Qed.

Lemma transient_read (o : Outcome Response) :
  Retry.transient o -> Retry.transient (read o).
Proof.
  intros (e & -> & He). rewrite (proj1 Hone). exists e. auto.
Qed.

(** Under the default policy, without a key: one invocation, no request. *)
Lemma keyless_run env :
  falsy_string (API_KEY env) = true ->
  exists env',
    Retry.retryOperation_default operation (Retry.start env)
      = (Rejected (Js.Obj GenAI.api_key_missing),
         Retry.mkSched env' [Retry.EvInvoke]) /\
    requests env' = requests env.
Proof.
  intros Hkey.
  pose proof (proj2 Hone env) as H.
  destruct (operation env) as [r env'] eqn:Hop. rewrite Hkey in H.
  destruct H as (_ & _ & -> & Hreq).
  exists env'. split; [|exact Hreq].
  unfold Retry.retryOperation_default.
  apply RetryFacts.retryOperation_first_fatal; [lia|exact Hop|reflexivity].
Qed.

(** Under the default policy, with a key: [k] transient replies and then a
    reply that is read as no transient failure. *)
Lemma decisive_run env (k : nat) :
  falsy_string (API_KEY env) = false ->
  (k < 3)%nat ->
  (forall j, (j < k)%nat ->
     Retry.transient (respond env (length (requests env) + j))) ->
  ~ Retry.transient (read (respond env (length (requests env) + k))) ->
  exists s,
    Retry.retryOperation_default operation (Retry.start env)
      = (RetryAux.as_caught (read (respond env (length (requests env) + k))), s) /\
    requests (Retry.world s) = repeat req (S k) ++ requests env /\
    Retry.timeline (Retry.log s) = Retry.backoff_timeline 2000 (S k).
Proof.
  intros Hkey Hk Hpre Hstop.
  destruct (RetryGeneral.retryOperation_decisive operation 3 2000 env k)
    as (s & Hrun & Hw & Htl); [lia| | |].
  - intros j Hj. rewrite (proj2 (proj2 (proj2 (attempts_with_key j env Hkey)))).
    apply transient_read, Hpre, Hj.
  - now rewrite (proj2 (proj2 (proj2 (attempts_with_key k env Hkey)))).
  - exists s. unfold Retry.retryOperation_default. rewrite Hrun, Hw.
    rewrite (proj2 (proj2 (proj2 (attempts_with_key k env Hkey)))).
    split; [reflexivity|]. split; [|exact Htl].
    apply (attempts_with_key (S k) env Hkey).
Qed.

(** Three transient replies in a row. *)
Lemma exhausted_run env :
  falsy_string (API_KEY env) = false ->
  (forall j, (j < 3)%nat ->
     Retry.transient (respond env (length (requests env) + j))) ->
  exists s,
    Retry.retryOperation_default operation (Retry.start env)
      = (read (respond env (length (requests env) + 2)), s) /\
    requests (Retry.world s) = repeat req 3 ++ requests env /\
    Retry.timeline (Retry.log s) = Retry.backoff_timeline 2000 3.
Proof.
  intros Hkey Hall.
  destruct (RetryFacts.retry_loop_transient operation 3 2000 3 0 Js.Undefined
              (Retry.start env))
    as (evs & Hrun & Htl); [lia|lia| |].
  { intros j Hj. cbn [Retry.world Retry.start].
    rewrite (proj2 (proj2 (proj2 (attempts_with_key j env Hkey)))).
    apply transient_read, Hall, Hj. }
  cbn [Retry.world Retry.start Retry.events Nat.sub] in Hrun.
  eexists. unfold Retry.retryOperation_default, Retry.retryOperation.
  change (Z.to_nat 3) with 3%nat. rewrite Hrun.
  rewrite (proj2 (proj2 (proj2 (attempts_with_key 2 env Hkey)))).
  split; [reflexivity|]. cbn [Retry.world]. split.
  - apply (attempts_with_key 3 env Hkey).
  - unfold Retry.log. cbn [Retry.events].
    rewrite app_nil_r, rev_involutive. exact Htl.
Qed.

(** Under the default policy, on any environment: at most three requests,
    each of them [req]. *)
Lemma bounded_run env :
  let (out, s) := Retry.retryOperation_default operation (Retry.start env) in
  exists m : nat,
    (m <= 3)%nat /\ requests (Retry.world s) = repeat req m ++ requests env.
Proof.
  destruct (RetryGeneral.retryOperation_any operation 3 2000 env ltac:(lia))
    as (k & s & Hk1 & Hk2 & _ & _ & Hrun & Hw & _).
  unfold Retry.retryOperation_default. rewrite Hrun, Hw.
  destruct (falsy_string (API_KEY env)) eqn:Hkey.
  - exists 0%nat. split; [lia|]. apply (attempts_without_key k env Hkey).
  - exists k. split; [lia|]. apply (attempts_with_key k env Hkey).
Qed.

(** What the wrapped operation resolves with was read off some reply. *)
Lemma resolved_run env v :
  fst (Retry.retryOperation_default operation (Retry.start env)) = Resolved v ->
  exists reply, read reply = Resolved v.
Proof.
  destruct (RetryGeneral.retryOperation_any operation 3 2000 env ltac:(lia))
    as (k & s & Hk1 & Hk2 & _ & _ & Hrun & Hw & _).
  unfold Retry.retryOperation_default. rewrite Hrun. cbn [fst].
  destruct (falsy_string (API_KEY env)) eqn:Hkey.
  - rewrite (proj2 (attempts_without_key (k - 1) env Hkey)). discriminate.
  - rewrite (proj2 (proj2 (proj2 (attempts_with_key (k - 1) env Hkey)))).
    intros H. eexists.
    destruct (read (respond env (length (requests env) + (k - 1))))
      as [v'|[|e]] eqn:E; cbn in H; try discriminate.
    rewrite E. exact H.
Qed.
End OneRequest.

End GeminiFacts.

Module GeminiExtras.
Import Types Gemini GeminiAux.

Lemma first_inline_data_none ps :
  Forall no_inline_data ps -> first_inline_data ps = None.
Proof.
  induction 1 as [|p ps Hp _ IH]; [reflexivity|].
  cbn [first_inline_data]. unfold no_inline_data in Hp.
  destruct (inlineData p) as [d|]; [|exact IH].
  destruct Hp as [-> | ->]; exact IH.
Qed.

Lemma first_inline_data_skips pre p post mime d :
  Forall no_inline_data pre ->
  inlineData p = Some (mkInlineData mime (Some d)) ->
  d <> "" ->
  first_inline_data (pre ++ p :: post) = Some d.
Proof.
  intros Hpre Hp Hd. induction Hpre as [|q pre Hq _ IH].
  - cbn [app first_inline_data]. rewrite Hp. cbn [data falsy_string].
    apply String.eqb_neq in Hd. now rewrite Hd.
  - cbn [app first_inline_data]. unfold no_inline_data in Hq.
    destruct (inlineData q) as [dq|]; [|exact IH].
    destruct Hq as [-> | ->]; exact IH.
Qed.

Lemma first_inline_data_nonempty ps d :
  first_inline_data ps = Some d -> d <> "".
Proof.
  induction ps as [|p ps IH]; [discriminate|].
  cbn [first_inline_data].
  destruct (inlineData p) as [dp|]; [|exact IH].
  destruct (data dp) as [s|]; cbn [falsy_string]; [|exact IH].
  destruct (String.eqb s "") eqn:E; [exact IH|].
  intros [= <-]. now apply String.eqb_neq.
Qed.

Lemma fatal_new_Error {T} msg :
  ~ Retry.transient (@Rejected T (Js.Obj (Js.new_Error msg))).
Proof. now apply RetryGeneral.not_transient_fatal. Qed.

(** X7. Without an API key (unset or empty) each of [analyzeSiteImage],
    [generateVisionImage] and [createExecutionPlan] rejects with the
    missing-key error after a single invocation of its operation: nothing
    is retried and no request is sent. *)
Theorem calls_without_key_fail_fast
    (JSON_parse_analysis : string -> Outcome SiteAnalysis)
    (JSON_parse_plan : string -> Outcome RestorationPlan)
    (env : Env) (image : string) (location : option Coordinates)
    (type : RestorationType) (analysis : SiteAnalysis) (budget : BudgetLevel) :
  falsy_string (API_KEY env) = true ->
  (let (out, s) :=
     analyzeSiteImage JSON_parse_analysis image location (Retry.start env) in
   out = Rejected (Js.Obj GenAI.api_key_missing) /\
   Retry.log s = [Retry.EvInvoke] /\
   requests (Retry.world s) = requests env) /\
  (let (out, s) :=
     generateVisionImage image type analysis budget (Retry.start env) in
   out = Rejected (Js.Obj GenAI.api_key_missing) /\
   Retry.log s = [Retry.EvInvoke] /\
   requests (Retry.world s) = requests env) /\
  (let (out, s) :=
     createExecutionPlan JSON_parse_plan analysis type budget location
       (Retry.start env) in
   out = Rejected (Js.Obj GenAI.api_key_missing) /\
   Retry.log s = [Retry.EvInvoke] /\
   requests (Retry.world s) = requests env).
Proof.
  intros Hkey. repeat apply conj.
  - destruct (GeminiFacts.keyless_run _ _ _
                (GeminiFacts.analyze_one_request JSON_parse_analysis image location)
                env Hkey) as (env' & Hrun & Hreq).
    unfold analyzeSiteImage. rewrite Hrun. auto.
  - destruct (GeminiFacts.keyless_run _ _ _
                (GeminiFacts.vision_one_request image type analysis budget)
                env Hkey) as (env' & Hrun & Hreq).
    unfold generateVisionImage. rewrite Hrun. auto.
  - destruct (GeminiFacts.keyless_run _ _ _
                (GeminiFacts.plan_one_request JSON_parse_plan analysis type budget
                   location)
                env Hkey) as (env' & Hrun & Hreq).
    unfold createExecutionPlan. rewrite Hrun. auto.
Qed.

Lemma calls_without_key_fail_fast_witness :
  falsy_string (API_KEY env_keyless) = true /\
  (let (out, s) :=
     analyzeSiteImage parse_analysis_ok "aW1hZ2U=" None (Retry.start env_keyless) in
   out = Rejected (Js.Obj GenAI.api_key_missing) /\
   Retry.log s = [Retry.EvInvoke] /\
   requests (Retry.world s) = requests env_keyless) /\
  (let (out, s) :=
     generateVisionImage "aW1hZ2U=" FOOD_FOREST Samples.paved_yard HIGH
       (Retry.start env_keyless) in
   out = Rejected (Js.Obj GenAI.api_key_missing) /\
   Retry.log s = [Retry.EvInvoke] /\
   requests (Retry.world s) = requests env_keyless) /\
  (let (out, s) :=
     createExecutionPlan parse_plan_ok Samples.paved_yard FOOD_FOREST HIGH None
       (Retry.start env_keyless) in
   out = Rejected (Js.Obj GenAI.api_key_missing) /\
   Retry.log s = [Retry.EvInvoke] /\
   requests (Retry.world s) = requests env_keyless).
Proof.
  split; [reflexivity|].
  apply (calls_without_key_fail_fast parse_analysis_ok parse_plan_ok env_keyless
           "aW1hZ2U=" None FOOD_FOREST Samples.paved_yard HIGH).
  reflexivity.
Defined.

(** X8. With a key, when the next [k < 3] requests are answered 429 or 503
    and the one after them with text that parses, [analyzeSiteImage]
    resolves with the parsed analysis; it has sent the same request
    [k + 1] times, with the backoff delays between them. *)
Theorem analyzeSiteImage_recovers
    (JSON_parse_analysis : string -> Outcome SiteAnalysis)
    (image : string) (location : option Coordinates) (env : Env)
    (k : nat) (r : Response) (t : string) (a : SiteAnalysis) :
  falsy_string (API_KEY env) = false ->
  (k < 3)%nat ->
  (forall j, (j < k)%nat ->
     Retry.transient (respond env (length (requests env) + j))) ->
  respond env (length (requests env) + k) = Resolved r ->
  text r = Some t ->
  t <> "" ->
  JSON_parse_analysis t = Resolved a ->
  let (out, s) :=
    analyzeSiteImage JSON_parse_analysis image location (Retry.start env) in
  out = Resolved a /\
  requests (Retry.world s)
    = repeat (analysis_request image location) (S k) ++ requests env /\
  Retry.timeline (Retry.log s) = Retry.backoff_timeline 2000 (S k).
Proof.
  intros Hkey Hk Hpre Hreply Ht Hne Hparse.
  assert (Hread : analysis_of_reply JSON_parse_analysis
                    (respond env (length (requests env) + k)) = Resolved a).
  { rewrite Hreply. cbn. rewrite Ht.
    apply String.eqb_neq in Hne. now rewrite Hne. }
  destruct (GeminiFacts.decisive_run _ _ _
              (GeminiFacts.analyze_one_request JSON_parse_analysis image location)
              env k Hkey Hk Hpre)
    as (s & Hrun & Hreq & Htl).
  { rewrite Hread. apply RetryGeneral.not_transient_resolved. }
  unfold analyzeSiteImage. rewrite Hrun, Hread. auto.
Qed.

Lemma analyzeSiteImage_recovers_witness :
  falsy_string (API_KEY (env_recovering (text_reply "{}"))) = false /\
  (2 < 3)%nat /\
  (forall j, (j < 2)%nat ->
     Retry.transient
       (respond (env_recovering (text_reply "{}"))
          (length (requests (env_recovering (text_reply "{}"))) + j))) /\
  respond (env_recovering (text_reply "{}"))
    (length (requests (env_recovering (text_reply "{}"))) + 2)
    = Resolved (text_reply "{}") /\
  text (text_reply "{}") = Some "{}" /\
  "{}" <> "" /\
  parse_analysis_ok "{}" = Resolved Samples.paved_yard /\
  let (out, s) :=
    analyzeSiteImage parse_analysis_ok "aW1hZ2U=" None
      (Retry.start (env_recovering (text_reply "{}"))) in
  out = Resolved Samples.paved_yard /\
  requests (Retry.world s)
    = repeat (analysis_request "aW1hZ2U=" None) 3
      ++ requests (env_recovering (text_reply "{}")) /\
  Retry.timeline (Retry.log s) = Retry.backoff_timeline 2000 3.
Proof.
  assert (H : forall j, (j < 2)%nat ->
     Retry.transient
       (respond (env_recovering (text_reply "{}"))
          (length (requests (env_recovering (text_reply "{}"))) + j))).
  { intros j Hj. destruct j as [|[|j]]; [eexists; split; reflexivity..|lia]. }
  split; [reflexivity|]. split; [lia|]. split; [exact H|].
  split; [reflexivity|]. split; [reflexivity|]. split; [discriminate|].
  split; [reflexivity|].
  apply (analyzeSiteImage_recovers parse_analysis_ok "aW1hZ2U=" None
           (env_recovering (text_reply "{}")) 2 (text_reply "{}") "{}"
           Samples.paved_yard);
    [reflexivity|lia|exact H|reflexivity|reflexivity|discriminate|reflexivity].
Defined.

(** X9. With a key, when the next three requests are all answered 429 or
    503, [createExecutionPlan] has sent its request exactly three times,
    2000 ms and 4000 ms apart, and rejects with the error of the third
    reply. *)
Theorem createExecutionPlan_gives_up
    (JSON_parse_plan : string -> Outcome RestorationPlan)
    (analysis : SiteAnalysis) (type : RestorationType) (budget : BudgetLevel)
    (location : option Coordinates) (env : Env) :
  falsy_string (API_KEY env) = false ->
  (forall j, (j < 3)%nat ->
     Retry.transient (respond env (length (requests env) + j))) ->
  let (out, s) :=
    createExecutionPlan JSON_parse_plan analysis type budget location
      (Retry.start env) in
  (exists e, respond env (length (requests env) + 2) = Rejected (Js.Obj e) /\
             out = Rejected (Js.Obj e)) /\
  requests (Retry.world s)
    = repeat (plan_request analysis type budget location) 3 ++ requests env /\
  Retry.timeline (Retry.log s)
    = [Retry.EvInvoke; Retry.EvSleep 2000; Retry.EvInvoke; Retry.EvSleep 4000;
       Retry.EvInvoke].
Proof.
  intros Hkey Hall.
  destruct (GeminiFacts.exhausted_run _ _ _
              (GeminiFacts.plan_one_request JSON_parse_plan analysis type budget
                 location)
              env Hkey Hall)
    as (s & Hrun & Hreq & Htl).
  unfold createExecutionPlan. rewrite Hrun.
  destruct (Hall 2%nat ltac:(lia)) as (e & He & _).
  split; [|split; [exact Hreq|exact Htl]].
  exists e. split; [exact He|]. now rewrite He.
Qed.

Lemma createExecutionPlan_gives_up_witness :
  falsy_string (API_KEY env_unavailable) = false /\
  (forall j, (j < 3)%nat ->
     Retry.transient
       (respond env_unavailable (length (requests env_unavailable) + j))) /\
  let (out, s) :=
    createExecutionPlan parse_plan_ok Samples.paved_yard RAIN_GARDEN LOW None
      (Retry.start env_unavailable) in
  (exists e, respond env_unavailable (length (requests env_unavailable) + 2)
               = Rejected (Js.Obj e) /\
             out = Rejected (Js.Obj e)) /\
  requests (Retry.world s)
    = repeat (plan_request Samples.paved_yard RAIN_GARDEN LOW None) 3
      ++ requests env_unavailable /\
  Retry.timeline (Retry.log s)
    = [Retry.EvInvoke; Retry.EvSleep 2000; Retry.EvInvoke; Retry.EvSleep 4000;
       Retry.EvInvoke].
Proof.
  assert (H : forall j, (j < 3)%nat ->
     Retry.transient
       (respond env_unavailable (length (requests env_unavailable) + j))).
  { intros j _. eexists. split; reflexivity. }
  split; [reflexivity|]. split; [exact H|].
  apply (createExecutionPlan_gives_up parse_plan_ok Samples.paved_yard
           RAIN_GARDEN LOW None env_unavailable); [reflexivity|exact H].
Defined.

(** X10. A reply without text (none, or the empty string) is not retried:
    after that one request [analyzeSiteImage] rejects with "No analysis
    generated" and [createExecutionPlan] with "No plan generated". *)
Theorem reply_without_text_is_final
    (JSON_parse_analysis : string -> Outcome SiteAnalysis)
    (JSON_parse_plan : string -> Outcome RestorationPlan)
    (env : Env) (r : Response) (image : string)
    (location : option Coordinates) (type : RestorationType)
    (analysis : SiteAnalysis) (budget : BudgetLevel) :
  falsy_string (API_KEY env) = false ->
  respond env (length (requests env)) = Resolved r ->
  falsy_string (text r) = true ->
  (let (out, s) :=
     analyzeSiteImage JSON_parse_analysis image location (Retry.start env) in
   out = Rejected (Js.Obj (Js.new_Error "No analysis generated")) /\
   requests (Retry.world s) = analysis_request image location :: requests env /\
   Retry.timeline (Retry.log s) = [Retry.EvInvoke]) /\
  (let (out, s) :=
     createExecutionPlan JSON_parse_plan analysis type budget location
       (Retry.start env) in
   out = Rejected (Js.Obj (Js.new_Error "No plan generated")) /\
   requests (Retry.world s)
     = plan_request analysis type budget location :: requests env /\
   Retry.timeline (Retry.log s) = [Retry.EvInvoke]).
Proof.
  intros Hkey Hreply Htext.
  assert (Ha : analysis_of_reply JSON_parse_analysis
                 (respond env (length (requests env) + 0))
               = Rejected (Js.Obj (Js.new_Error "No analysis generated"))).
  { rewrite Nat.add_0_r, Hreply. cbn. unfold falsy_string in Htext.
    destruct (text r); [now rewrite Htext|reflexivity]. }
  assert (Hp : plan_of_reply JSON_parse_plan
                 (respond env (length (requests env) + 0))
               = Rejected (Js.Obj (Js.new_Error "No plan generated"))).
  { rewrite Nat.add_0_r, Hreply. cbn. unfold falsy_string in Htext.
    destruct (text r); [now rewrite Htext|reflexivity]. }
  split.
  - destruct (GeminiFacts.decisive_run _ _ _
                (GeminiFacts.analyze_one_request JSON_parse_analysis image location)
                env 0 Hkey ltac:(lia))
      as (s & Hrun & Hreq & Htl).
    + intros j Hj. lia.
    + rewrite Ha. apply fatal_new_Error.
    + unfold analyzeSiteImage. rewrite Hrun, Ha. auto.
  - destruct (GeminiFacts.decisive_run _ _ _
                (GeminiFacts.plan_one_request JSON_parse_plan analysis type budget
                   location)
                env 0 Hkey ltac:(lia))
      as (s & Hrun & Hreq & Htl).
    + intros j Hj. lia.
    + rewrite Hp. apply fatal_new_Error.
    + unfold createExecutionPlan. rewrite Hrun, Hp. auto.
Qed.

Lemma reply_without_text_is_final_witness :
  falsy_string (API_KEY (env_replying (text_reply ""))) = false /\
  respond (env_replying (text_reply ""))
    (length (requests (env_replying (text_reply ""))))
    = Resolved (text_reply "") /\
  falsy_string (text (text_reply "")) = true /\
  (let (out, s) :=
     analyzeSiteImage parse_analysis_ok "aW1hZ2U=" None
       (Retry.start (env_replying (text_reply ""))) in
   out = Rejected (Js.Obj (Js.new_Error "No analysis generated")) /\
   requests (Retry.world s)
     = analysis_request "aW1hZ2U=" None
       :: requests (env_replying (text_reply "")) /\
   Retry.timeline (Retry.log s) = [Retry.EvInvoke]) /\
  (let (out, s) :=
     createExecutionPlan parse_plan_ok Samples.paved_yard NATIVE_MEADOW MEDIUM
       None (Retry.start (env_replying (text_reply ""))) in
   out = Rejected (Js.Obj (Js.new_Error "No plan generated")) /\
   requests (Retry.world s)
     = plan_request Samples.paved_yard NATIVE_MEADOW MEDIUM None
       :: requests (env_replying (text_reply "")) /\
   Retry.timeline (Retry.log s) = [Retry.EvInvoke]).
Proof.
  split; [reflexivity|]. split; [reflexivity|]. split; [reflexivity|].
  apply (reply_without_text_is_final parse_analysis_ok parse_plan_ok
           (env_replying (text_reply "")) (text_reply "") "aW1hZ2U=" None
           NATIVE_MEADOW Samples.paved_yard MEDIUM);
    reflexivity.
Defined.

(** X11. On any environment each of the three calls sends its own request
    at most three times and nothing else. *)
Theorem calls_send_at_most_three_requests
    (JSON_parse_analysis : string -> Outcome SiteAnalysis)
    (JSON_parse_plan : string -> Outcome RestorationPlan)
    (env : Env) (image : string) (location : option Coordinates)
    (type : RestorationType) (analysis : SiteAnalysis) (budget : BudgetLevel) :
  (let (out, s) :=
     analyzeSiteImage JSON_parse_analysis image location (Retry.start env) in
   exists m : nat, (m <= 3)%nat /\
     requests (Retry.world s)
       = repeat (analysis_request image location) m ++ requests env) /\
  (let (out, s) :=
     generateVisionImage image type analysis budget (Retry.start env) in
   exists m : nat, (m <= 3)%nat /\
     requests (Retry.world s)
       = repeat (vision_request image type analysis budget) m ++ requests env) /\
  (let (out, s) :=
     createExecutionPlan JSON_parse_plan analysis type budget location
       (Retry.start env) in
   exists m : nat, (m <= 3)%nat /\
     requests (Retry.world s)
       = repeat (plan_request analysis type budget location) m ++ requests env).
Proof.
  repeat apply conj.
  - apply (GeminiFacts.bounded_run _ _ _
             (GeminiFacts.analyze_one_request JSON_parse_analysis image location)).
  - apply (GeminiFacts.bounded_run _ _ _
             (GeminiFacts.vision_one_request image type analysis budget)).
  - apply (GeminiFacts.bounded_run _ _ _
             (GeminiFacts.plan_one_request JSON_parse_plan analysis type budget
                location)).
Qed.

(** X12. With a key, when the reply's first candidate has a part carrying
    non-empty inline data and no part before it does, [generateVisionImage]
    resolves with the data of that part, after a single request. *)
Theorem generateVisionImage_takes_first_inline_data
    (image : string) (type : RestorationType) (analysis : SiteAnalysis)
    (budget : BudgetLevel) (env : Env) (r : Response)
    (pre post : list Part) (p : Part) (mime d : string) :
  falsy_string (API_KEY env) = false ->
  respond env (length (requests env)) = Resolved r ->
  candidate_parts r = pre ++ p :: post ->
  Forall no_inline_data pre ->
  inlineData p = Some (mkInlineData mime (Some d)) ->
  d <> "" ->
  let (out, s) :=
    generateVisionImage image type analysis budget (Retry.start env) in
  out = Resolved d /\
  requests (Retry.world s)
    = vision_request image type analysis budget :: requests env /\
  Retry.timeline (Retry.log s) = [Retry.EvInvoke].
Proof.
  intros Hkey Hreply Hparts Hpre Hp Hd.
  assert (Hread : image_of_reply (respond env (length (requests env) + 0))
                  = Resolved d).
  { rewrite Nat.add_0_r, Hreply. cbn [image_of_reply]. rewrite Hparts.
    now rewrite (first_inline_data_skips pre p post mime d Hpre Hp Hd). }
  destruct (GeminiFacts.decisive_run _ _ _
              (GeminiFacts.vision_one_request image type analysis budget)
              env 0 Hkey ltac:(lia))
    as (s & Hrun & Hreq & Htl).
  - intros j Hj. lia.
  - rewrite Hread. apply RetryGeneral.not_transient_resolved.
  - unfold generateVisionImage. rewrite Hrun, Hread. auto.
Qed.

Lemma generateVisionImage_takes_first_inline_data_witness :
  falsy_string
    (API_KEY (env_replying (image_reply [caption; picture "cG5n"; picture "b2xk"])))
    = false /\
  respond (env_replying (image_reply [caption; picture "cG5n"; picture "b2xk"]))
    (length (requests
       (env_replying (image_reply [caption; picture "cG5n"; picture "b2xk"]))))
    = Resolved (image_reply [caption; picture "cG5n"; picture "b2xk"]) /\
  candidate_parts (image_reply [caption; picture "cG5n"; picture "b2xk"])
    = [caption] ++ picture "cG5n" :: [picture "b2xk"] /\
  Forall no_inline_data [caption] /\
  inlineData (picture "cG5n") = Some (mkInlineData "image/png" (Some "cG5n")) /\
  "cG5n" <> "" /\
  let (out, s) :=
    generateVisionImage "aW1hZ2U=" POLLINATOR_HAVEN Samples.paved_yard LOW
      (Retry.start
         (env_replying (image_reply [caption; picture "cG5n"; picture "b2xk"]))) in
  out = Resolved "cG5n" /\
  requests (Retry.world s)
    = vision_request "aW1hZ2U=" POLLINATOR_HAVEN Samples.paved_yard LOW
      :: requests
           (env_replying (image_reply [caption; picture "cG5n"; picture "b2xk"])) /\
  Retry.timeline (Retry.log s) = [Retry.EvInvoke].
Proof.
  assert (Hpre : Forall no_inline_data [caption])
    by (constructor; [exact I|constructor]).
  split; [reflexivity|]. split; [reflexivity|]. split; [reflexivity|].
  split; [exact Hpre|]. split; [reflexivity|]. split; [discriminate|].
  apply (generateVisionImage_takes_first_inline_data "aW1hZ2U=" POLLINATOR_HAVEN
           Samples.paved_yard LOW
           (env_replying (image_reply [caption; picture "cG5n"; picture "b2xk"]))
           (image_reply [caption; picture "cG5n"; picture "b2xk"])
           [caption] [picture "b2xk"] (picture "cG5n") "image/png" "cG5n");
    [reflexivity|reflexivity|reflexivity|exact Hpre|reflexivity|discriminate].
Defined.

(** X13. With a key, when no part of the reply's first candidate carries
    non-empty inline data (no candidate at all included),
    [generateVisionImage] rejects with "No image generated by Flash model"
    after that single request, without a retry. *)
Theorem generateVisionImage_without_image
    (image : string) (type : RestorationType) (analysis : SiteAnalysis)
    (budget : BudgetLevel) (env : Env) (r : Response) :
  falsy_string (API_KEY env) = false ->
  respond env (length (requests env)) = Resolved r ->
  Forall no_inline_data (candidate_parts r) ->
  let (out, s) :=
    generateVisionImage image type analysis budget (Retry.start env) in
  out = Rejected (Js.Obj (Js.new_Error "No image generated by Flash model")) /\
  requests (Retry.world s)
    = vision_request image type analysis budget :: requests env /\
  Retry.timeline (Retry.log s) = [Retry.EvInvoke].
Proof.
  intros Hkey Hreply Hnone.
  assert (Hread : image_of_reply (respond env (length (requests env) + 0))
                  = Rejected (Js.Obj (Js.new_Error
                                "No image generated by Flash model"))).
  { rewrite Nat.add_0_r, Hreply. cbn [image_of_reply].
    now rewrite (first_inline_data_none _ Hnone). }
  destruct (GeminiFacts.decisive_run _ _ _
              (GeminiFacts.vision_one_request image type analysis budget)
              env 0 Hkey ltac:(lia))
    as (s & Hrun & Hreq & Htl).
  - intros j Hj. lia.
  - rewrite Hread. apply fatal_new_Error.
  - unfold generateVisionImage. rewrite Hrun, Hread. auto.
Qed.

Lemma generateVisionImage_without_image_witness :
  falsy_string (API_KEY (env_replying (text_reply "no picture today"))) = false /\
  respond (env_replying (text_reply "no picture today"))
    (length (requests (env_replying (text_reply "no picture today"))))
    = Resolved (text_reply "no picture today") /\
  Forall no_inline_data (candidate_parts (text_reply "no picture today")) /\
  let (out, s) :=
    generateVisionImage "aW1hZ2U=" COMMUNITY_PARK Samples.paved_yard MEDIUM
      (Retry.start (env_replying (text_reply "no picture today"))) in
  out = Rejected (Js.Obj (Js.new_Error "No image generated by Flash model")) /\
  requests (Retry.world s)
    = vision_request "aW1hZ2U=" COMMUNITY_PARK Samples.paved_yard MEDIUM
      :: requests (env_replying (text_reply "no picture today")) /\
  Retry.timeline (Retry.log s) = [Retry.EvInvoke].
Proof.
  split; [reflexivity|]. split; [reflexivity|]. split; [constructor|].
  apply (generateVisionImage_without_image "aW1hZ2U=" COMMUNITY_PARK
           Samples.paved_yard MEDIUM
           (env_replying (text_reply "no picture today"))
           (text_reply "no picture today"));
    [reflexivity|reflexivity|constructor].
Defined.

(** X14. Whatever the service answers, an image [generateVisionImage]
    resolves with is never the empty string. *)
Theorem generateVisionImage_never_empty
    (image : string) (type : RestorationType) (analysis : SiteAnalysis)
    (budget : BudgetLevel) (env : Env) (d : string) :
  fst (generateVisionImage image type analysis budget (Retry.start env))
    = Resolved d ->
  d <> "".
Proof.
  intros Hres.
  destruct (GeminiFacts.resolved_run _ _ _
              (GeminiFacts.vision_one_request image type analysis budget)
              env d Hres) as (reply & Hread).
  destruct reply as [r|x]; cbn [image_of_reply] in Hread; [|discriminate].
  destruct (first_inline_data (candidate_parts r)) as [d'|] eqn:E;
    [|discriminate].
  injection Hread as <-. exact (first_inline_data_nonempty _ _ E).
Qed.

Lemma generateVisionImage_never_empty_witness :
  fst (generateVisionImage "aW1hZ2U=" POLLINATOR_HAVEN Samples.paved_yard LOW
         (Retry.start
            (env_recovering (image_reply [picture ""; picture "cG5n"]))))
    = Resolved "cG5n" /\
  "cG5n" <> "".
Proof.
  assert (H : fst (generateVisionImage "aW1hZ2U=" POLLINATOR_HAVEN
                     Samples.paved_yard LOW
                     (Retry.start
                        (env_recovering (image_reply [picture ""; picture "cG5n"]))))
              = Resolved "cG5n") by (vm_compute; reflexivity).
  split; [exact H|].
  exact (generateVisionImage_never_empty "aW1hZ2U=" POLLINATOR_HAVEN
           Samples.paved_yard LOW
           (env_recovering (image_reply [picture ""; picture "cG5n"])) "cG5n" H).
Defined.

End GeminiExtras.

(** ** The session along its runs *)

Module SessionFacts.
Import Types App AppRender.

Lemma Pending_eqb_eq p q : Pending_eqb p q = true -> p = q.
Proof.
  destruct p as [|a| | |], q as [|b| | |]; cbn; try discriminate; try reflexivity.
  destruct a, b; cbn; try discriminate; reflexivity.
Qed.

Lemma settle_one_count p l rest q :
  settle_one p l = Some rest ->
  length (List.filter (Pending_eqb q) l)
  = (length (List.filter (Pending_eqb q) rest) + flag (Pending_eqb q p))%nat.
Proof.
  revert rest. induction l as [|a l IH]; intros rest; cbn [settle_one];
    [discriminate|].
  destruct (Pending_eqb p a) eqn:E.
  - intros [= <-]. apply Pending_eqb_eq in E as <-.
    cbn [List.filter]. destruct (Pending_eqb q p); cbn [length flag]; lia.
  - destruct (settle_one p l) as [l''|]; [|discriminate].
    intros [= <-]. specialize (IH l'' eq_refl).
    cbn [List.filter]. destruct (Pending_eqb q a); cbn [length]; lia.
Qed.

Lemma flag_le b : (flag b <= 1)%nat.
Proof. destruct b; cbn; lia. Qed.

Ltac conjuncts :=
  repeat match goal with |- _ /\ _ => split end;
  try assumption; try discriminate; try lia;
  try (intros _; split; discriminate).

(** One event keeps [session_invariant]. *)
Lemma step_keeps_session s l s' :
  step s l = Some s' -> session_invariant s -> session_invariant s'.
Proof.
  unfold session_invariant, in_flight.
  intros Hstep (Hnp & Hc & Hloc & Hdemo).
  destruct l; cbn [step] in Hstep.
  - (* LChooseFile *)
    destruct (shows_landing (ui s)); [|discriminate].
    injection Hstep as <-. cbn. conjuncts.
  - (* LDemoClick *)
    destruct (shows_landing (ui s)); [|discriminate].
    destruct (loadingDemo (ui s)) eqn:Hld; [discriminate|].
    injection Hstep as <-. cbn in *. conjuncts.
  - (* LFetchDone *)
    destruct (settle_one PFetch (inflight s)) as [rest|] eqn:E; [|discriminate].
    pose proof (settle_one_count _ _ _ PLocate E) as H1.
    pose proof (settle_one_count _ _ _ PFetch E) as H2.
    pose proof (settle_one_count _ _ _ (PRead true) E) as H3.
    cbn [Pending_eqb flag] in H1, H2, H3.
    pose proof (flag_le (loadingDemo (ui s))).
    destruct r; injection Hstep as <-; cbn in *; conjuncts.
  - (* LReadDone *)
    destruct (settle_one (PRead demo) (inflight s)) as [rest|] eqn:E;
      [|discriminate].
    pose proof (settle_one_count _ _ _ PLocate E) as H1.
    pose proof (settle_one_count _ _ _ PFetch E) as H2.
    pose proof (settle_one_count _ _ _ (PRead true) E) as H3.
    cbn [Pending_eqb flag] in H1, H2, H3.
    pose proof (flag_le (loadingDemo (ui s))).
    injection Hstep as <-.
    destruct demo; cbn in *; conjuncts.
  - (* LLocateClick *)
    destruct (shows_landing (ui s)); [|discriminate].
    destruct (isLocating (ui s)) eqn:Hil;
      [rewrite orb_true_r in Hstep; discriminate|].
    destruct (negb _); [|discriminate]. cbn [andb] in Hstep.
    destruct supported; injection Hstep as <-; cbn in *;
      rewrite ?Hil; conjuncts.
  - (* LLocateDone *)
    destruct (settle_one PLocate (inflight s)) as [rest|] eqn:E; [|discriminate].
    pose proof (settle_one_count _ _ _ PLocate E) as H1.
    pose proof (settle_one_count _ _ _ PFetch E) as H2.
    pose proof (settle_one_count _ _ _ (PRead true) E) as H3.
    cbn [Pending_eqb flag] in H1, H2, H3.
    pose proof (flag_le (isLocating (ui s))).
    destruct r; injection Hstep as <-; cbn in *; conjuncts.
  - (* LAnalysisDone *)
    destruct (settle_one PAnalysis (inflight s)) as [rest|] eqn:E;
      [|discriminate].
    pose proof (settle_one_count _ _ _ PLocate E) as H1.
    pose proof (settle_one_count _ _ _ PFetch E) as H2.
    pose proof (settle_one_count _ _ _ (PRead true) E) as H3.
    cbn [Pending_eqb flag] in H1, H2, H3.
    destruct r; cbn in Hstep; injection Hstep as <-; cbn in *;
      conjuncts.
  - (* LSelectType *)
    destruct (offers (ui s) type b); [|discriminate].
    unfold handleTypeSelection_begin in Hstep.
    destruct (falsy_string _ || falsy_object _);
      injection Hstep as <-; cbn in *; conjuncts.
  - (* LGenerationDone *)
    destruct (settle_one PGeneration (inflight s)) as [rest|] eqn:E;
      [|discriminate].
    pose proof (settle_one_count _ _ _ PLocate E) as H1.
    pose proof (settle_one_count _ _ _ PFetch E) as H2.
    pose proof (settle_one_count _ _ _ (PRead true) E) as H3.
    cbn [Pending_eqb flag] in H1, H2, H3.
    destruct (promise_all image_first r1 r2) as [[img p]|x];
      cbn in Hstep; injection Hstep as <-; cbn in *;
      conjuncts.
  - (* LReset *)
    injection Hstep as <-. cbn in *. conjuncts.
Qed.

Lemma run_with_keeps (P : Sys -> Prop) allowed :
  (forall s l s', allowed s l = true -> step s l = Some s' -> P s -> P s') ->
  forall trace s s', run_with allowed s trace = Some s' -> P s -> P s'.
Proof.
  intros Hstep. induction trace as [|l trace IH]; intros s s'; cbn.
  - now intros [= <-].
  - destruct (allowed s l) eqn:Ha; [|discriminate].
    destruct (step s l) as [s1|] eqn:Hs; [|discriminate].
    intros Hrun Hp. exact (IH s1 s' Hrun (Hstep s l s1 Ha Hs Hp)).
Qed.

Lemma boot_session : session_invariant boot.
Proof. repeat split; cbn; try discriminate. Qed.

Lemma run_keeps_session trace s :
  run boot trace = Some s -> session_invariant s.
Proof.
  intros Hrun.
  apply (run_with_keeps session_invariant (fun _ _ => true)
           (fun s l s' _ => step_keeps_session s l s') trace boot s Hrun).
  exact boot_session.
Qed.

Ltac view_done :=
  repeat match goal with |- _ /\ _ => split end;
  try assumption; try discriminate;
  try (intros [H|H]; discriminate H);
  try (intros _; discriminate);
  try (intros _; split; discriminate).

(** One allowed event keeps [view_invariant]. *)
Lemma step_keeps_view s l s' :
  no_reset_in_flight s l = true ->
  step s l = Some s' ->
  view_invariant s -> view_invariant s'.
Proof.
  intros Hallowed Hstep (Hg & Hsel & Hnp & Hrev & Hc).
  pose proof (AppFacts.step_keeps_analysis s l s' Hallowed Hstep Hg) as Hg'.
  unfold view_invariant. split; [exact Hg'|]. clear Hg'.
  destruct Hg as [Hgen _]. unfold waiting in *.
  destruct l; cbn [step] in Hstep.
  - (* LChooseFile *)
    destruct (shows_landing (ui s)); [|discriminate].
    injection Hstep as <-. cbn. view_done.
  - (* LDemoClick *)
    destruct (shows_landing (ui s) && negb (loadingDemo (ui s)));
      [|discriminate].
    injection Hstep as <-. cbn. view_done.
  - (* LFetchDone *)
    destruct (settle_one PFetch (inflight s)) as [rest|] eqn:E; [|discriminate].
    pose proof (AppFacts.settle_one_other _ _ _ E eq_refl) as Hrest.
    destruct r; injection Hstep as <-; cbn; rewrite Hrest; view_done.
  - (* LReadDone *)
    destruct (settle_one (PRead demo) (inflight s)) as [rest|] eqn:E;
      [|discriminate].
    pose proof (AppFacts.settle_one_other _ _ _ E eq_refl) as Hrest.
    injection Hstep as <-. destruct demo; cbn; rewrite Hrest; view_done.
  - (* LLocateClick *)
    destruct (shows_landing (ui s) && _); [|discriminate].
    destruct supported; injection Hstep as <-; cbn; view_done.
  - (* LLocateDone *)
    destruct (settle_one PLocate (inflight s)) as [rest|] eqn:E; [|discriminate].
    pose proof (AppFacts.settle_one_other _ _ _ E eq_refl) as Hrest.
    destruct r; injection Hstep as <-; cbn; rewrite Hrest; view_done.
  - (* LAnalysisDone *)
    destruct (settle_one PAnalysis (inflight s)) as [rest|] eqn:E;
      [|discriminate].
    pose proof (AppFacts.settle_one_other _ _ _ E eq_refl) as Hrest.
    destruct r; cbn in Hstep; injection Hstep as <-; cbn; rewrite Hrest;
      view_done.
  - (* LSelectType *)
    destruct (offers (ui s) type b); [|discriminate].
    unfold handleTypeSelection_begin in Hstep.
    destruct (falsy_string _ || falsy_object _);
      injection Hstep as <-; cbn; view_done.
  - (* LGenerationDone *)
    destruct (settle_one PGeneration (inflight s)) as [rest|] eqn:E;
      [|discriminate].
    pose proof (AppFacts.settle_one_was_waiting _ _ _ E) as Hwas.
    pose proof (AppFacts.settle_one_subset _ _ _ E) as Hsub.
    destruct (promise_all image_first r1 r2) as [[img p]|x];
      cbn in Hstep; injection Hstep as <-; cbn; view_done; auto.
  - (* LReset *)
    cbn in Hallowed. unfold waiting in Hallowed.
    apply negb_true_iff in Hallowed.
    injection Hstep as <-. cbn. rewrite Hallowed. view_done.
Qed.

Lemma boot_view : view_invariant boot.
Proof.
  split; [exact AppFacts.boot_has_analysis|]. cbn. view_done.
Qed.

Lemma run_keeps_view trace s :
  run_with no_reset_in_flight boot trace = Some s -> view_invariant s.
Proof.
  intros Hrun.
  apply (run_with_keeps view_invariant no_reset_in_flight step_keeps_view
           trace boot s Hrun).
  exact boot_view.
Qed.

End SessionFacts.

Module SessionExtras.
Import Types App AppRender.

(** X15. In every state the session can reach, resets at any moment
    included, [appState] is never [PLANNING], and whenever it is [COMPLETE]
    the project holds both a plan and a restored image. *)
Theorem complete_holds_plan_and_image (trace : list Label) (s : Sys) :
  run boot trace = Some s ->
  appState (ui s) <> PLANNING /\
  (appState (ui s) = COMPLETE ->
     plan (project (ui s)) <> None /\ restoredImage (project (ui s)) <> None).
Proof.
  intros Hrun.
  destruct (SessionFacts.run_keeps_session trace s Hrun) as (H1 & H2 & _).
  auto.
Qed.

Lemma complete_holds_plan_and_image_witness :
  run boot Samples.reset_during_generation = Some completed_after_reset /\
  appState (ui completed_after_reset) <> PLANNING /\
  (appState (ui completed_after_reset) = COMPLETE ->
     plan (project (ui completed_after_reset)) <> None /\
     restoredImage (project (ui completed_after_reset)) <> None).
Proof.
  assert (H : run boot Samples.reset_during_generation
              = Some completed_after_reset) by (vm_compute; reflexivity).
  split; [exact H|].
  exact (complete_holds_plan_and_image Samples.reset_during_generation
           completed_after_reset H).
Defined.



(** X17. Along every run in which [resetApp] is not invoked while a
    generation is in flight, the page renders exactly one of the landing
    page, the spinner and the two-column interface; in [REVIEW_ANALYSIS]
    the review view is rendered, in [COMPLETE] the plan view, and the
    project then records the selected type. *)
Theorem exactly_one_view_rendered (trace : list Label) (s : Sys) :
  run_with no_reset_in_flight boot trace = Some s ->
  (flag (shows_landing (ui s)) + flag (shows_loader (ui s))
   + flag (shows_workspace (ui s)))%nat = 1%nat /\
  (appState (ui s) = REVIEW_ANALYSIS -> shows_review (ui s) = true) /\
  (appState (ui s) = COMPLETE ->
     shows_plan (ui s) = true /\ selectedType (project (ui s)) <> None).
Proof.
  intros Hrun.
  destruct (SessionFacts.run_keeps_view trace s Hrun)
    as (_ & _ & Hnp & Hrev & Hc).
  unfold shows_landing, shows_loader, shows_review, shows_plan, shows_workspace.
  destruct (appState (ui s)) eqn:Hst; cbn;
    try (repeat split; (reflexivity || discriminate)).
  - assert (Ha : analysis (project (ui s)) <> None) by (apply Hrev; auto).
    destruct (analysis (project (ui s))); [|contradiction].
    repeat split; (reflexivity || discriminate).
  - contradiction.
  - assert (Ha : analysis (project (ui s)) <> None) by (apply Hrev; auto).
    destruct (Hc eq_refl) as [Hp Hs].
    destruct (analysis (project (ui s))); [|contradiction].
    destruct (plan (project (ui s))); [|contradiction].
    repeat split; try (reflexivity || discriminate). exact Hs.
Qed.

Lemma exactly_one_view_rendered_witness :
  run_with no_reset_in_flight boot Samples.undisturbed_generation
    = Some completed /\
  (flag (shows_landing (ui completed)) + flag (shows_loader (ui completed))
   + flag (shows_workspace (ui completed)))%nat = 1%nat /\
  (appState (ui completed) = REVIEW_ANALYSIS ->
     shows_review (ui completed) = true) /\
  (appState (ui completed) = COMPLETE ->
     shows_plan (ui completed) = true /\
     selectedType (project (ui completed)) <> None).
Proof.
  assert (H : run_with no_reset_in_flight boot Samples.undisturbed_generation
              = Some completed) by (vm_compute; reflexivity).
  split; [exact H|].
  exact (exactly_one_view_rendered Samples.undisturbed_generation completed H).
Defined.

Lemma offers_viable st a type b score :
  appState st = REVIEW_ANALYSIS ->
  analysis (project st) = Some a ->
  In (type, score) (suitability a) ->
  30 < score ->
  offers st type b = true.
Proof.
  intros Hst Ha Hin Hscore. unfold offers. rewrite Hst, Ha.
  apply existsb_exists.
  exists (AnalysisView.render_button (AnalysisView.mkProps a false) b
            (type, score)).
  split.
  - unfold AnalysisView.render_buttons. apply in_map. exact Hin.
  - unfold AnalysisView.click, AnalysisView.render_button.
    cbn [AnalysisView.btn_disabled AnalysisView.btn_onClick
         AnalysisView.isGenerating].
    apply AnalysisViewFacts.isViable_spec in Hscore. rewrite Hscore.
    cbn. now rewrite String.eqb_refl.
Qed.

(** X18. A session in which everything succeeds: a non-empty image is
    read, its analysis resolves, a type scoring above 30 is selected, and
    both generation promises resolve. The state goes [ANALYZING],
    [REVIEW_ANALYSIS], [GENERATING_VISION], [COMPLETE]; every field of the
    project is then set from the inputs, nothing is pending and no alert was
    shown. *)
Theorem successful_session (base64Data : string) (a : SiteAnalysis)
    (type : RestorationType) (b : BudgetLevel) (image_first : bool)
    (img : string) (p : RestorationPlan) (score : Z) :
  base64Data <> "" ->
  In (type, score) (suitability a) ->
  30 < score ->
  let path := happy_path base64Data a type b image_first img p in
  (exists s2, run boot (firstn 2 path) = Some s2 /\
              appState (ui s2) = ANALYZING) /\
  (exists s3, run boot (firstn 3 path) = Some s3 /\
              appState (ui s3) = REVIEW_ANALYSIS) /\
  (exists s4, run boot (firstn 4 path) = Some s4 /\
              appState (ui s4) = GENERATING_VISION /\
              inflight s4 = [PGeneration]) /\
  run boot path
    = Some (mkSys
              (mkState COMPLETE (finished_project base64Data a type b img p)
                 false false)
              [] []).
Proof.
  intros Hdata Hin Hscore path.
  assert (Hoff : offers
            (setAppState REVIEW_ANALYSIS
               (setProject (with_analysis a)
                  (onloadend base64Data false initial))) type b = true).
  { apply (offers_viable _ a type b score); auto. }
  assert (Hguard : falsy_string (Some base64Data) = false).
  { cbn. now apply String.eqb_neq. }
  repeat split.
  - eexists. split; reflexivity.
  - eexists. split; reflexivity.
  - eexists. unfold path, happy_path, run. cbn [firstn run_with step].
    cbn [shows_landing ui boot initial appState inflight settle_one
         Pending_eqb Bool.eqb alerts startAnalysis_settle app].
    rewrite Hoff. unfold handleTypeSelection_begin. cbn in Hguard |- *.
    rewrite Hguard. cbn. repeat split.
  - unfold path, happy_path, run. cbn [run_with step].
    cbn [shows_landing ui boot initial appState inflight settle_one
         Pending_eqb Bool.eqb alerts startAnalysis_settle app].
    rewrite Hoff. unfold handleTypeSelection_begin. cbn in Hguard |- *.
    rewrite Hguard. cbn. reflexivity.
Qed.

Lemma successful_session_witness :
  "aW1hZ2U=" <> "" /\
  In (NATIVE_MEADOW, 31) (suitability Samples.paved_yard) /\
  30 < 31 /\
  let path :=
    happy_path "aW1hZ2U=" Samples.paved_yard NATIVE_MEADOW HIGH false
      "cmVzdG9yZWQ=" Samples.three_phase_plan in
  (exists s2, run boot (firstn 2 path) = Some s2 /\
              appState (ui s2) = ANALYZING) /\
  (exists s3, run boot (firstn 3 path) = Some s3 /\
              appState (ui s3) = REVIEW_ANALYSIS) /\
  (exists s4, run boot (firstn 4 path) = Some s4 /\
              appState (ui s4) = GENERATING_VISION /\
              inflight s4 = [PGeneration]) /\
  run boot path
    = Some (mkSys
              (mkState COMPLETE
                 (finished_project "aW1hZ2U=" Samples.paved_yard NATIVE_MEADOW
                    HIGH "cmVzdG9yZWQ=" Samples.three_phase_plan)
                 false false)
              [] []).
Proof.
  assert (Hin : In (NATIVE_MEADOW, 31) (suitability Samples.paved_yard)).
  { cbn. right. right. right. left. reflexivity. }
  split; [discriminate|]. split; [exact Hin|]. split; [lia|].
  apply (successful_session "aW1hZ2U=" Samples.paved_yard NATIVE_MEADOW HIGH
           false "cmVzdG9yZWQ=" Samples.three_phase_plan 31);
    [discriminate|exact Hin|lia].
Defined.

End SessionExtras.

(** ** The plan view and the review view, rendered *)

Module ViewExtras.
Import Types.

Section PlanViewLookup.
Import PlanView PlanViewRender.
Variable JSON_parse : string -> Outcome LocalSearchResult.

(** The handler with a location, spelt out. *)
Lemma handleSearchForPhase_run (location : Coordinates) (index : Z)
    (category : string) (v : View) :
  exists result env',
    GenAI.findLocalServices_operation JSON_parse category location (net v)
      = (Resolved result, env') /\
    handleSearchForPhase JSON_parse (Some location) index category v
      = mkView (<[index := result]> (phaseResults v))
               (<[index := false]> (<[index := true]> (loadingPhases v)))
               env' (alerts v) ((category, location) :: lookups v).
Proof.
  destruct (LookupFacts.findLocalServices_run JSON_parse category location (net v))
    as (result & env' & Hop & Hrun).
  exists result, env'. split; [exact Hop|].
  unfold handleSearchForPhase, call_findLocalServices.
  cbn [setLoadingPhases net phaseResults loadingPhases alerts lookups].
  rewrite Hrun. reflexivity.
Qed.

(** X19. With a location, [handleSearchForPhase] always ends with a result
    stored for the phase and its loading flag cleared; it shows no alert
    (its own [catch] is never entered), makes one call of
    [findLocalServices] that sends at most one request, and leaves the
    entries of every other phase as they were. *)
Theorem handleSearchForPhase_with_location_settles
    (location : Coordinates) (index : Z) (category : string) (v : View) :
  let v' := handleSearchForPhase JSON_parse (Some location) index category v in
  (exists result, phaseResults v' !! index = Some result) /\
  loadingPhases v' !! index = Some false /\
  alerts v' = alerts v /\
  lookups v' = (category, location) :: lookups v /\
  (length (GenAI.requests (net v')) <= S (length (GenAI.requests (net v))))%nat /\
  (forall j, j <> index ->
     phaseResults v' !! j = phaseResults v !! j /\
     loadingPhases v' !! j = loadingPhases v !! j).
Proof.
  destruct (handleSearchForPhase_run location index category v)
    as (result & env' & Hop & ->).
  cbn [phaseResults loadingPhases alerts lookups net].
  split; [exists result; apply lookup_insert_eq|].
  split; [apply lookup_insert_eq|].
  split; [reflexivity|]. split; [reflexivity|]. split.
  - pose proof (GenAIFacts.operation_requests JSON_parse category location (net v))
      as Hle.
    rewrite Hop in Hle. exact Hle.
  - intros j Hj. split.
    + now rewrite lookup_insert_ne.
    + now rewrite !lookup_insert_ne.
Qed.

End PlanViewLookup.

Section ReviewView.
Import AnalysisView AnalysisViewRender.

(** X21. When the analysis respects the ranges of its schema
    (biodiversity score 0 to 10, soil sealing 0 to 100), each of the three
    radar values lies between 0 and its [fullMark] of 100. *)
Theorem biodiversityData_within_chart (a : SiteAnalysis) :
  0 <= biodiversityScore a <= 10 ->
  0 <= soilSealingEstimate a <= 100 ->
  map subject (biodiversityData a)
    = ["Biodiversity"; "Permeability"; "Sunlight"] /\
  Forall (fun pt => 0 <= A pt <= fullMark pt /\ fullMark pt = 100)
         (biodiversityData a).
Proof.
  intros Hb Hs. split; [reflexivity|].
  unfold biodiversityData.
  repeat constructor; cbn [A fullMark]; try lia;
    destruct (includes (sunlightExposure a) "Full"); lia.
Qed.

Lemma biodiversityData_within_chart_witness :
  0 <= biodiversityScore Samples.paved_yard <= 10 /\
  0 <= soilSealingEstimate Samples.paved_yard <= 100 /\
  map subject (biodiversityData Samples.paved_yard)
    = ["Biodiversity"; "Permeability"; "Sunlight"] /\
  Forall (fun pt => 0 <= A pt <= fullMark pt /\ fullMark pt = 100)
         (biodiversityData Samples.paved_yard).
Proof.
  split; [cbn; lia|]. split; [cbn; lia|].
  apply (biodiversityData_within_chart Samples.paved_yard); cbn; lia.
Defined.

(** X22. With [isGenerating] false, as [App] passes it, a strategy button
    is disabled exactly when its score is at most 30, and then its badge is
    red and reads "Not Suitable" over the unsuitability note; an enabled
    button shows its score as "% Match" with a progress bar of that width,
    and a green or yellow badge is only ever on an enabled button. *)
Theorem button_face_agrees (a : SiteAnalysis) (b : BudgetLevel)
    (item : RestorationType * Z) :
  let btn := render_button (mkProps a false) b item in
  let face := render_face item in
  (btn_disabled btn = true <-> snd item <= 30) /\
  (btn_disabled btn = true ->
     badge_colour face = Red /\ badge_text face = NotSuitable /\
     footer face = Unsuitable /\ click btn = []) /\
  (btn_disabled btn = false ->
     badge_text face = PercentMatch (snd item) /\
     footer face = ProgressBar (snd item) /\
     click btn = [mkSelectCall (fst item) b]) /\
  (badge_colour face <> Red -> btn_disabled btn = false /\ 50 < snd item).
Proof.
  destruct item as [name score].
  unfold render_button, render_face, click.
  cbn [btn_disabled btn_onClick badge_colour badge_text footer isGenerating
       fst snd orb].
  unfold isViable.
  destruct (Z.gtb_spec score 30) as [H30|H30];
    destruct (Z.gtb_spec score 80) as [H80|H80];
    destruct (Z.gtb_spec score 50) as [H50|H50];
    cbn [negb]; try lia;
    repeat split; intros; try reflexivity; try discriminate; try lia;
    try congruence.
Qed.
End ReviewView.

End ViewExtras.

(** ** The lookup when nothing fails *)

Module LookupExtras.
Import Types GenAI LookupSamples.

(** X23. With a key, when the request is answered with non-empty text that
    parses, [findLocalServices] resolves with the parsed result; it has
    sent that one request, for the given query and location, on the flash
    model with web search enabled. *)
Theorem findLocalServices_returns_parsed
    (JSON_parse : string -> Outcome LocalSearchResult)
    (query : string) (location : Coordinates) (env : Env)
    (r : Response) (t : string) (v : LocalSearchResult) :
  falsy_string (API_KEY env) = false ->
  respond env (length (requests env)) = Resolved r ->
  text r = Some t ->
  t <> "" ->
  JSON_parse t = Resolved v ->
  let (out, s) := findLocalServices JSON_parse query location (Retry.start env) in
  out = Resolved v /\
  Retry.log s = [Retry.EvInvoke] /\
  requests (Retry.world s)
    = mkRequest "gemini-3-flash-preview" query location true :: requests env /\
  console_errors (Retry.world s) = console_errors env.
Proof.
  intros Hkey Hreply Ht Hne Hparse.
  assert (Hop : findLocalServices_operation JSON_parse query location env
                = (Resolved v,
                   mkEnv (API_KEY env) (respond env)
                     (mkRequest "gemini-3-flash-preview" query location true
                      :: requests env)
                     (console_errors env))).
  { unfold findLocalServices_operation, findLocalServices_try,
      AsyncM.try_catch, AsyncM.bind, getAI, generateContent.
    unfold falsy_string in Hkey.
    destruct (API_KEY env) as [k|] eqn:Hk; [|discriminate].
    rewrite Hkey, Hreply, Ht. cbn [falsy_string].
    apply String.eqb_neq in Hne. rewrite Hne, Hparse, Hk. reflexivity. }
  unfold findLocalServices, Retry.retryOperation_default.
  rewrite (RetryFacts.retryOperation_first_resolved _ 3 2000 env v _
             ltac:(lia) Hop).
  repeat split.
Qed.

Lemma findLocalServices_returns_parsed_witness :
  falsy_string (API_KEY nursery_env) = false /\
  respond nursery_env (length (requests nursery_env))
    = Resolved (mkResponse (Some "{providers}")) /\
  text (mkResponse (Some "{providers}")) = Some "{providers}" /\
  "{providers}" <> "" /\
  parse_nursery "{providers}" = Resolved one_nursery /\
  let (out, s) :=
    findLocalServices parse_nursery "Native Plant Nursery" Samples.berlin
      (Retry.start nursery_env) in
  out = Resolved one_nursery /\
  Retry.log s = [Retry.EvInvoke] /\
  requests (Retry.world s)
    = mkRequest "gemini-3-flash-preview" "Native Plant Nursery" Samples.berlin
        true :: requests nursery_env /\
  console_errors (Retry.world s) = console_errors nursery_env.
Proof.
  split; [reflexivity|]. split; [reflexivity|]. split; [reflexivity|].
  split; [discriminate|]. split; [reflexivity|].
  apply (findLocalServices_returns_parsed parse_nursery "Native Plant Nursery"
           Samples.berlin nursery_env (mkResponse (Some "{providers}"))
           "{providers}" one_nursery);
    [reflexivity|reflexivity|reflexivity|discriminate|reflexivity].
Defined.

End LookupExtras.
